(** * University Services System: the data-access layer of [app.py]

    A shallow embedding of [get_connection], [run_query], [fetch_data] and of
    the form handlers of the four tabs that call them, together with a
    reference model of what they talk to: the MySQL driver (connections,
    cursors, transactions, exceptions), the relational store behind it, and
    the table object that [pandas.read_sql] builds.

    Numbers that the store holds as decimals are exact rationals here;
    where the code rounds, it rounds the float64 nearest to the number. *)

From Stdlib Require Import ZArith QArith Qround Qabs String Ascii List Bool Lia.
From stdpp Require Import gmap strings list fin_maps pretty.

Local Open Scope string_scope.

(** ** Python values that cross the driver boundary *)

Record date := { year : Z; month : Z; day : Z }.

Inductive value :=
| VNull
| VStr (s : string)
| VInt (n : Z)
| VNum (q : Q)
| VDate (d : date).

(** Python truthiness, as used by [if s_id and f_name], [if del_id],
    [if search_term] and by the conditional expression of the dashboard. *)
Definition truthy_str (s : string) : bool :=
  match s with EmptyString => false | String _ _ => true end.

Definition truthy (v : value) : bool :=
  match v with
  | VNull => false
  | VStr s => truthy_str s
  | VInt n => negb (n =? 0)%Z
  | VNum q => negb (Qeq_bool q 0)
  | VDate _ => true
  end.

(** ** Exceptions

    [DbError] stands for [mysql.connector.Error] and its subclasses, the only
    class that [run_query] catches; the others are ordinary [Exception]s. *)
Inductive exn :=
| DbError (msg : string)
| IndexError
| KeyError (key : string)
| OtherError (msg : string).

Inductive result (A : Type) :=
| Returns (a : A)
| Raises (e : exn).
Arguments Returns {A} a.
Arguments Raises {A} e.

(** ** The relational store *)

Record Student := {
  student_id : string;
  first_name : string;
  last_name : string;
  email : string
}.

Record Service := {
  service_id : Z;
  service_name : string;
  base_cost : Q
}.

(** A row of [StudentServices]; the prefix is the alias the source gives the
    table. *)
Record Assignment := {
  ss_id : Z;
  ss_student_id : string;
  ss_service_id : Z;
  service_date : date;
  service_cost : Q
}.

Inductive fk_action := Restrict | Cascade.

(** Modelled from the spec: the schema file (table and view declarations) is
    not among the sources.  The spec fixes the columns, the primary keys and
    that the store enforces referential integrity; what it leaves open is a
    parameter here: the collation of the text columns, given as the folding
    applied to each character before two strings are compared, and what a
    delete of a Student does to the assignments that reference it. *)
Record Schema := {
  collate : ascii -> ascii;
  on_delete_student : fk_action
}.

Record Store := {
  schema : Schema;
  Students : list Student;
  Services : list Service;
  StudentServices : list Assignment;
  next_service_id : Z;
  next_assignment_id : Z
}.

Fixpoint fold_chars (f : ascii -> ascii) (s : string) : string :=
  match s with
  | EmptyString => EmptyString
  | String c s' => String (f c) (fold_chars f s')
  end.

(** [a = b] on a text column. *)
Definition sql_eq (sc : Schema) (a b : string) : bool :=
  String.eqb (fold_chars (collate sc) a) (fold_chars (collate sc) b).

(** [s LIKE p]: [%] matches any run of characters, [_] exactly one, and a
    backslash takes the next pattern character literally. *)
Fixpoint like (eqc : ascii -> ascii -> bool) (p : list ascii) : list ascii -> bool :=
  match p with
  | [] => fun s => match s with [] => true | _ :: _ => false end
  | c :: p' =>
    if Ascii.eqb c "%" then
      fix star (s : list ascii) : bool :=
        like eqc p' s || match s with [] => false | _ :: s' => star s' end
    else if Ascii.eqb c "_" then
      fun s => match s with [] => false | _ :: s' => like eqc p' s' end
    else if Ascii.eqb c "\" then
      match p' with
      | [] => fun s => match s with
                       | [] => false
                       | x :: s' => eqc x c && like eqc p' s'
                       end
      | d :: p'' => fun s => match s with
                             | [] => false
                             | x :: s' => eqc x d && like eqc p'' s'
                             end
      end
    else
      fun s => match s with [] => false | x :: s' => eqc x c && like eqc p' s' end
  end.

Definition sql_like (sc : Schema) (s pattern : string) : bool :=
  like (fun x y => Ascii.eqb (collate sc x) (collate sc y))
       (list_ascii_of_string pattern) (list_ascii_of_string s).

(** ** Tables as [pandas] returns them *)

Record DataFrame := {
  columns : list string;
  rows : list (list value)
}.

(** [pd.DataFrame()]: no columns, no rows. *)
Definition DataFrame_new : DataFrame := {| columns := []; rows := [] |}.

(** [df.empty]: some axis has length zero. *)
Definition empty (df : DataFrame) : bool :=
  match columns df, rows df with
  | _ :: _, _ :: _ => false
  | _, _ => true
  end.

Fixpoint index_of (col : string) (cols : list string) : option nat :=
  match cols with
  | [] => None
  | c :: cols' => if String.eqb c col then Some O else option_map S (index_of col cols')
  end.

(** [df.iloc[0][col]] *)
Definition iloc0 (df : DataFrame) (col : string) : result value :=
  match rows df with
  | [] => Raises IndexError
  | r :: _ =>
    match index_of col (columns df) with
    | None => Raises (KeyError col)
    | Some i => match nth_error r i with
                | Some v => Returns v
                | None => Raises (KeyError col)
                end
    end
  end.

(** ** The SQL engine, for the statements the application issues *)

Inductive command := InsertStudent | DeleteStudent | InsertService | InsertAssignment.

Inductive query :=
| CountStudents | CountAssignments | AvgCost
| ViewTotalCost | Popularity | ViewHistory | ViewHistoryLike
| AllStudents | AllServices | StudentChoices | ServiceChoices.

Inductive statement := Cmd (c : command) | Qry (q : query).

Definition sql_insert_student : string :=
  "INSERT INTO Students (student_id, first_name, last_name, email) VALUES (%s, %s, %s, %s)".
Definition sql_delete_student : string :=
  "DELETE FROM Students WHERE student_id = %s".
Definition sql_insert_service : string :=
  "INSERT INTO Services (service_name, base_cost) VALUES (%s, %s)".
Definition sql_insert_assignment : string :=
  "INSERT INTO StudentServices (student_id, service_id, service_date, service_cost) VALUES (%s, %s, %s, %s)".
Definition sql_count_students : string :=
  "SELECT COUNT(*) as count FROM Students".
Definition sql_count_assignments : string :=
  "SELECT COUNT(*) as count FROM StudentServices".
Definition sql_avg_cost : string :=
  "SELECT AVG(service_cost) as avg_cost FROM StudentServices".
Definition sql_view_total_cost : string :=
  "SELECT * FROM vw_total_cost_per_student".
(** Lines 128 to 133: the text between the triple quotes, line breaks and
    indentation included. *)
Definition nl : string := String (ascii_of_nat 10) EmptyString.
Definition sql_popularity : string :=
  nl +:+ "    SELECT sv.service_name, COUNT(*) as usage_count" +:+
  nl +:+ "    FROM StudentServices ss" +:+
  nl +:+ "    JOIN Services sv ON ss.service_id = sv.service_id" +:+
  nl +:+ "    GROUP BY sv.service_name" +:+
  nl +:+ "    ".
Definition sql_view_history : string :=
  "SELECT * FROM vw_student_services".
Definition sql_view_history_like : string :=
  "SELECT * FROM vw_student_services WHERE student_name LIKE %s".
Definition sql_all_students : string :=
  "SELECT * FROM Students".
Definition sql_all_services : string :=
  "SELECT * FROM Services".
Definition sql_student_choices : string :=
  "SELECT student_id, first_name, last_name FROM Students".
Definition sql_service_choices : string :=
  "SELECT service_id, service_name, base_cost FROM Services".

Definition statements : list (string * statement) :=
  [ (sql_insert_student, Cmd InsertStudent);
    (sql_delete_student, Cmd DeleteStudent);
    (sql_insert_service, Cmd InsertService);
    (sql_insert_assignment, Cmd InsertAssignment);
    (sql_count_students, Qry CountStudents);
    (sql_count_assignments, Qry CountAssignments);
    (sql_avg_cost, Qry AvgCost);
    (sql_view_total_cost, Qry ViewTotalCost);
    (sql_popularity, Qry Popularity);
    (sql_view_history, Qry ViewHistory);
    (sql_view_history_like, Qry ViewHistoryLike);
    (sql_all_students, Qry AllStudents);
    (sql_all_services, Qry AllServices);
    (sql_student_choices, Qry StudentChoices);
    (sql_service_choices, Qry ServiceChoices) ].

(** The server's parser: any other text is a syntax error. *)
Fixpoint parse_in (tbl : list (string * statement)) (sql : string) : option statement :=
  match tbl with
  | [] => None
  | (text, s) :: tbl' => if String.eqb text sql then Some s else parse_in tbl' sql
  end.

Definition parse : string -> option statement := parse_in statements.

(** Occurrences of the positional placeholder [%s]. *)
Fixpoint count_placeholders (sql : string) : nat :=
  match sql with
  | String "%" (String "s" rest as tl) => S (count_placeholders rest)
  | String _ rest => count_placeholders rest
  | EmptyString => O
  end.

(** What [cursor.execute] and [read_sql] do with the parameters before the
    text reaches the server: a non-empty sequence is substituted position
    by position and must match the placeholders in number; with no
    parameters the text goes out as it is, and a placeholder left in it is a
    syntax error there. *)
Definition bind_params (sql : string) (params : option (list value)) : result (list value) :=
  let n := count_placeholders sql in
  match params with
  | None | Some [] =>
    if Nat.eqb n 0 then Returns []
    else Raises (DbError "You have an error in your SQL syntax")
  | Some ps =>
    if Nat.ltb (length ps) n then Raises (DbError "Not enough parameters for the SQL statement")
    else if Nat.ltb n (length ps) then Raises (DbError "Not all parameters were used in the SQL statement")
    else Returns ps
  end.

Definition with_students (st : Store) (l : list Student) (l' : list Assignment) : Store :=
  {| schema := schema st; Students := l; Services := Services st;
     StudentServices := l';
     next_service_id := next_service_id st;
     next_assignment_id := next_assignment_id st |}.

Definition add_service (st : Store) (name : string) (cost : Q) : Store :=
  {| schema := schema st; Students := Students st;
     Services := Services st ++
       [ {| service_id := next_service_id st; service_name := name; base_cost := cost |} ];
     StudentServices := StudentServices st;
     next_service_id := next_service_id st + 1;
     next_assignment_id := next_assignment_id st |}.

Definition add_assignment (st : Store) (sid : string) (svc : Z) (d : date) (cost : Q) : Store :=
  {| schema := schema st; Students := Students st; Services := Services st;
     StudentServices := StudentServices st ++
       [ {| ss_id := next_assignment_id st; ss_student_id := sid; ss_service_id := svc;
            service_date := d; service_cost := cost |} ];
     next_service_id := next_service_id st;
     next_assignment_id := next_assignment_id st + 1 |}.

Definition is_student (st : Store) (sid : string) (s : Student) : bool :=
  sql_eq (schema st) (student_id s) sid.

Definition refers_to (st : Store) (sid : string) (a : Assignment) : bool :=
  sql_eq (schema st) (ss_student_id a) sid.

Definition has_student (st : Store) (sid : string) : bool :=
  existsb (is_student st sid) (Students st).

Definition has_service (st : Store) (svc : Z) : bool :=
  existsb (fun sv => (service_id sv =? svc)%Z) (Services st).

Definition referenced (st : Store) (sid : string) : bool :=
  existsb (refers_to st sid) (StudentServices st).

Definition delete_student (st : Store) (sid : string) : Store :=
  with_students st
    (List.filter (fun s => negb (is_student st sid s)) (Students st))
    (if has_student st sid
     then List.filter (fun a => negb (refers_to st sid a)) (StudentServices st)
     else StudentServices st).

(** A mutating statement on the working copy of a transaction: the new copy
    and the number of rows of the target table it changed, or the store's
    refusal.  A refused statement changes nothing. *)
Definition exec_command (c : command) (args : list value) (st : Store) : result (Store * Z) :=
  match c, args with
  | InsertStudent, [VStr sid; VStr fn; VStr ln; VStr em] =>
    if has_student st sid
    then Raises (DbError "Duplicate entry for key 'PRIMARY'")
    else Returns
      (with_students st
         (Students st ++
            [ {| student_id := sid; first_name := fn; last_name := ln; email := em |} ])
         (StudentServices st), 1%Z)
  | DeleteStudent, [VStr sid] =>
    match on_delete_student (schema st) with
    | Restrict =>
      if has_student st sid && referenced st sid
      then Raises (DbError "Cannot delete or update a parent row: a foreign key constraint fails")
      else Returns (delete_student st sid,
                    Z.of_nat (length (List.filter (is_student st sid) (Students st))))
    | Cascade =>
      Returns (delete_student st sid,
               Z.of_nat (length (List.filter (is_student st sid) (Students st))))
    end
  | InsertService, [VStr name; VNum cost] =>
    Returns (add_service st name cost, 1%Z)
  | InsertAssignment, [VStr sid; VInt svc; VDate d; VNum cost] =>
    if has_student st sid && has_service st svc
    then Returns (add_assignment st sid svc d cost, 1%Z)
    else Raises (DbError "Cannot add or update a child row: a foreign key constraint fails")
  | _, _ => Raises (DbError "Incorrect value for column")
  end.

Definition Qsum (l : list Q) : Q := fold_right Qplus 0%Q l.

(** Modelled from the spec: the view [vw_student_services], declared in the
    schema file that is not among the sources.  The spec gives its columns
    (student_id, student_name, service_name, service_date, service_cost) and
    calls it the joined student/service/assignment listing. *)
Record HistoryRow := {
  h_student_id : string;
  student_name : string;
  h_service_name : string;
  h_service_date : date;
  h_service_cost : Q
}.

Definition join_assignment (st : Store) (a : Assignment) : list HistoryRow :=
  match List.find (is_student st (ss_student_id a)) (Students st),
        List.find (fun sv => (service_id sv =? ss_service_id a)%Z) (Services st) with
  | Some s, Some sv =>
    [ {| h_student_id := student_id s;
         student_name := first_name s +:+ " " +:+ last_name s;
         h_service_name := service_name sv;
         h_service_date := service_date a;
         h_service_cost := service_cost a |} ]
  | _, _ => []
  end.

Definition vw_student_services (st : Store) : list HistoryRow :=
  flat_map (join_assignment st) (StudentServices st).

Fixpoint distinct {A : Type} (same : A -> A -> bool) (l : list A) : list A :=
  match l with
  | [] => []
  | x :: l' => x :: List.filter (fun y => negb (same x y)) (distinct same l')
  end.

Definition total_cost (st : Store) (sid : string) : Q :=
  Qsum (map service_cost (List.filter (refers_to st sid) (StudentServices st))).

(** Modelled from the spec: the view [vw_total_cost_per_student], declared in
    the schema file that is not among the sources.  The spec gives its
    columns (student_id, total_cost) and calls it the per-student total-cost
    aggregation: one row per student that has assignments, with the sum of
    their [service_cost]. *)
Definition vw_total_cost_per_student (st : Store) : list (string * Q) :=
  map (fun sid => (sid, total_cost st sid))
      (distinct (sql_eq (schema st)) (map ss_student_id (StudentServices st))).

Definition history_values (h : HistoryRow) : list value :=
  [ VStr (h_student_id h); VStr (student_name h); VStr (h_service_name h);
    VDate (h_service_date h); VNum (h_service_cost h) ].

Definition history_columns : list string :=
  [ "student_id"; "student_name"; "service_name"; "service_date"; "service_cost" ].

(** [StudentServices ss JOIN Services sv ON ss.service_id = sv.service_id]:
    the name of the Service of each assignment. *)
Definition used_services (st : Store) : list string :=
  flat_map (fun a =>
              map service_name
                  (List.filter (fun sv => (service_id sv =? ss_service_id a)%Z) (Services st)))
           (StudentServices st).

(** [GROUP BY sv.service_name] with [COUNT( * )]. *)
Definition usage_counts (st : Store) : list (string * Z) :=
  map (fun name =>
         (name, Z.of_nat (length (List.filter (sql_eq (schema st) name) (used_services st)))))
      (distinct (sql_eq (schema st)) (used_services st)).

(** A read statement on the store: the result set with its column names. *)
Definition eval_query (q : query) (args : list value) (st : Store) : result DataFrame :=
  match q, args with
  | CountStudents, [] =>
    Returns {| columns := ["count"];
               rows := [[VInt (Z.of_nat (length (Students st)))]] |}
  | CountAssignments, [] =>
    Returns {| columns := ["count"];
               rows := [[VInt (Z.of_nat (length (StudentServices st)))]] |}
  | AvgCost, [] =>
    Returns {| columns := ["avg_cost"];
               rows := [[ match StudentServices st with
                          | [] => VNull
                          | l => VNum (Qsum (map service_cost l) / inject_Z (Z.of_nat (length l)))
                          end ]] |}
  | ViewTotalCost, [] =>
    Returns {| columns := ["student_id"; "total_cost"];
               rows := map (fun r => [VStr (fst r); VNum (snd r)])
                           (vw_total_cost_per_student st) |}
  | Popularity, [] =>
    Returns {| columns := ["service_name"; "usage_count"];
               rows := map (fun r => [VStr (fst r); VInt (snd r)]) (usage_counts st) |}
  | ViewHistory, [] =>
    Returns {| columns := history_columns;
               rows := map history_values (vw_student_services st) |}
  | ViewHistoryLike, [VStr pattern] =>
    Returns {| columns := history_columns;
               rows := map history_values
                 (List.filter (fun h => sql_like (schema st) (student_name h) pattern)
                              (vw_student_services st)) |}
  | AllStudents, [] =>
    Returns {| columns := ["student_id"; "first_name"; "last_name"; "email"];
               rows := map (fun s => [VStr (student_id s); VStr (first_name s);
                                      VStr (last_name s); VStr (email s)])
                           (Students st) |}
  | AllServices, [] | ServiceChoices, [] =>
    Returns {| columns := ["service_id"; "service_name"; "base_cost"];
               rows := map (fun sv => [VInt (service_id sv); VStr (service_name sv);
                                       VNum (base_cost sv)])
                           (Services st) |}
  | StudentChoices, [] =>
    Returns {| columns := ["student_id"; "first_name"; "last_name"];
               rows := map (fun s => [VStr (student_id s); VStr (first_name s);
                                      VStr (last_name s)])
                           (Students st) |}
  | _, _ => Raises (DbError "Incorrect value for parameter")
  end.

(** [cursor.execute(sql, params)] as the server sees it, on the working copy
    of the session's transaction.  A read statement leaves the copy as it is
    and reports no row count. *)
Definition execute (sql : string) (params : option (list value)) (txn : Store)
  : result (Store * Z) :=
  match bind_params sql params with
  | Raises e => Raises e
  | Returns args =>
    match parse sql with
    | None => Raises (DbError "You have an error in your SQL syntax")
    | Some (Cmd c) => exec_command c args txn
    | Some (Qry q) =>
      match eval_query q args txn with
      | Returns _ => Returns (txn, (-1)%Z)
      | Raises e => Raises e
      end
    end
  end.

(** [pandas] reports a failed execution as its own [DatabaseError], which is
    not a [mysql.connector.Error]. *)
Definition DatabaseError (e : exn) : exn :=
  match e with
  | DbError msg => OtherError ("Execution failed on sql: " +:+ msg)
  | _ => e
  end.

(** [pd.read_sql(sql, conn, params=params)] on the working copy: the table,
    or the exception.  A statement that returns no rows is executed and then
    fails when the result is read. *)
Definition read (sql : string) (params : option (list value)) (txn : Store)
  : Store * result DataFrame :=
  match bind_params sql params with
  | Raises e => (txn, Raises (DatabaseError e))
  | Returns args =>
    match parse sql with
    | None => (txn, Raises (DatabaseError (DbError "You have an error in your SQL syntax")))
    | Some (Qry q) =>
      match eval_query q args txn with
      | Returns df => (txn, Returns df)
      | Raises e => (txn, Raises (DatabaseError e))
      end
    | Some (Cmd c) =>
      match exec_command c args txn with
      | Returns (txn', _) => (txn', Raises (OtherError "'NoneType' object is not iterable"))
      | Raises e => (txn, Raises (DatabaseError e))
      end
    end
  end.

(** ** The world outside the script: committed data, open handles, and what
    the user and the server have been shown *)

Definition handle := nat.

Inductive event :=
| Toast (msg : string)
| Error (msg : string)
| Warning (msg : string)
| Rerun
| Executed (sql : string) (params : option (list value)) (rowcount : Z)
| Committed.

Record World := {
  store : Store;
  conns : gmap nat Store;
  cursors : gmap nat nat;
  next_handle : handle;
  log : list event
}.

Definition set_store (st : Store) (w : World) : World :=
  {| store := st; conns := conns w; cursors := cursors w;
     next_handle := next_handle w; log := log w |}.

Definition set_conns (m : gmap nat Store) (w : World) : World :=
  {| store := store w; conns := m; cursors := cursors w;
     next_handle := next_handle w; log := log w |}.

Definition set_cursors (m : gmap nat nat) (w : World) : World :=
  {| store := store w; conns := conns w; cursors := m;
     next_handle := next_handle w; log := log w |}.

Definition fresh_handle (w : World) : World :=
  {| store := store w; conns := conns w; cursors := cursors w;
     next_handle := S (next_handle w); log := log w |}.

Definition emit (e : event) (w : World) : World :=
  {| store := store w; conns := conns w; cursors := cursors w;
     next_handle := next_handle w; log := log w ++ [e] |}.

(** What can go wrong in a driver call for reasons outside the statement:
    the exception raised, and whether the link to the server is gone with
    it. *)
Inductive fault :=
| NoFault
| Fault (e : exn) (link_lost : bool).

Definition exn_eq_dec (a b : exn) : {a = b} + {a <> b}.
Proof. decide equality; apply string_dec. Defined.

Definition fault_eq_dec (a b : fault) : {a = b} + {a <> b}.
Proof. decide equality; [apply Bool.bool_dec | apply exn_eq_dec]. Defined.

(** The conditions under which one operation runs. *)
Record Env := {
  on_connect : fault;
  on_cursor : fault;
  on_execute : fault;
  on_commit : fault;
  on_read : fault
}.

Definition calm : Env :=
  {| on_connect := NoFault; on_cursor := NoFault; on_execute := NoFault;
     on_commit := NoFault; on_read := NoFault |}.

(** ** A state and exception monad for the script *)

Definition M (A : Type) : Type := World -> World * result A.

Definition ret {A : Type} (a : A) : M A := fun w => (w, Returns a).

Definition raise {A : Type} (e : exn) : M A := fun w => (w, Raises e).

Definition bind {A B : Type} (m : M A) (k : A -> M B) : M B :=
  fun w => match m w with
           | (w', Returns a) => k a w'
           | (w', Raises e) => (w', Raises e)
           end.

Declare Scope script_scope.
Delimit Scope script_scope with script.
Notation "x <- m ;; k" := (bind m (fun x => k))
  (at level 100, m at next level, right associativity) : script_scope.
Notation "m ;;; k" := (bind m (fun _ => k))
  (at level 100, right associativity) : script_scope.
Local Open Scope script_scope.

Definition lift {A : Type} (r : result A) : M A := fun w => (w, r).

Definition act (f : World -> World) : M unit := fun w => (f w, Returns tt).

(** ** The driver *)

Definition drop_link (lost : bool) (c : handle) (w : World) : World :=
  if lost then set_conns (delete c (conns w)) w else w.

(** A new session: its transaction starts from the committed data. *)
Definition connect (f : fault) : M handle := fun w =>
  match f with
  | NoFault =>
    let c := next_handle w in
    (fresh_handle (set_conns (<[c := store w]> (conns w)) w), Returns c)
  | Fault e _ => (w, Raises e)
  end.

Definition conn_cursor (f : fault) (c : handle) : M handle := fun w =>
  match f with
  | NoFault =>
    match conns w !! c with
    | Some _ =>
      let k := next_handle w in
      (fresh_handle (set_cursors (<[k := c]> (cursors w)) w), Returns k)
    | None => (w, Raises (DbError "MySQL Connection not available"))
    end
  | Fault e lost => (drop_link lost c w, Raises e)
  end.

Definition session_of (k : handle) (w : World) : option (handle * Store) :=
  match cursors w !! k with
  | Some c => match conns w !! c with
              | Some txn => Some (c, txn)
              | None => None
              end
  | None => None
  end.

Definition cursor_execute (f : fault) (k : handle) (sql : string)
    (params : option (list value)) : M unit := fun w =>
  match session_of k w with
  | None => (w, Raises (DbError "MySQL Connection not available"))
  | Some (c, txn) =>
    match f with
    | NoFault =>
      match execute sql params txn with
      | Returns (txn', n) =>
        (emit (Executed sql params n) (set_conns (<[c := txn']> (conns w)) w), Returns tt)
      | Raises e => (w, Raises e)
      end
    | Fault e lost => (drop_link lost c w, Raises e)
    end
  end.

Definition conn_commit (f : fault) (c : handle) : M unit := fun w =>
  match conns w !! c with
  | None => (w, Raises (DbError "MySQL Connection not available"))
  | Some txn =>
    match f with
    | NoFault => (emit Committed (set_store txn w), Returns tt)
    | Fault e lost => (drop_link lost c w, Raises e)
    end
  end.

Definition cursor_close (k : handle) (w : World) : World :=
  set_cursors (delete k (cursors w)) w.

Definition conn_is_connected (c : handle) (w : World) : bool :=
  match conns w !! c with Some _ => true | None => false end.

(** Closing a session discards what it has not committed. *)
Definition conn_close (c : handle) (w : World) : World :=
  set_conns (delete c (conns w)) w.

Definition read_sql (f : fault) (sql : string) (c : handle)
    (params : option (list value)) : M DataFrame := fun w =>
  match conns w !! c with
  | None => (w, Raises (OtherError "MySQL Connection not available"))
  | Some txn =>
    match f with
    | NoFault =>
      match read sql params txn with
      | (txn', Returns df) =>
        (emit (Executed sql params (-1)) (set_conns (<[c := txn']> (conns w)) w), Returns df)
      | (txn', Raises e) => (set_conns (<[c := txn']> (conns w)) w, Raises e)
      end
    | Fault e lost => (drop_link lost c w, Raises e)
    end
  end.

(** ** The notifications of the page *)

(** The first code point of a UTF-8 text. *)
Definition byte (c : ascii) : N := N_of_ascii c.

Definition first_code_point (s : string) : option N :=
  match s with
  | EmptyString => None
  | String b0 rest =>
    if (byte b0 <? 128)%N then Some (byte b0)
    else if (byte b0 <? 192)%N then None
    else if (byte b0 <? 224)%N then
      match rest with
      | String b1 _ => Some ((byte b0 - 192) * 64 + (byte b1 - 128))%N
      | _ => None
      end
    else if (byte b0 <? 240)%N then
      match rest with
      | String b1 (String b2 _) =>
        Some ((byte b0 - 224) * 4096 + (byte b1 - 128) * 64 + (byte b2 - 128))%N
      | _ => None
      end
    else if (byte b0 <? 248)%N then
      match rest with
      | String b1 (String b2 (String b3 _)) =>
        Some ((byte b0 - 240) * 262144 + (byte b1 - 128) * 4096 +
              (byte b2 - 128) * 64 + (byte b3 - 128))%N
      | _ => None
      end
    else None
  end.

(** Streamlit takes for [icon] one emoji of its table (or a material
    shortcode) and raises for anything else.  The table is not reproduced
    here; what is decided is the condition every entry of it meets: an emoji
    starts with [#], [*], a digit, the copyright or the registered sign, or
    with a code point from U+203C on.  A text that does not is refused. *)
Definition emoji_start (cp : N) : bool :=
  (cp =? 35)%N || (cp =? 42)%N || ((48 <=? cp)%N && (cp <=? 57)%N) ||
  (cp =? 169)%N || (cp =? 174)%N || (8252 <=? cp)%N.

Definition valid_icon (icon : string) : bool :=
  String.prefix ":material/" icon ||
  match first_code_point icon with
  | Some cp => emoji_start cp
  | None => false
  end.

(** [StreamlitAPIException], an [Exception] that is not a
    [mysql.connector.Error]. *)
Definition StreamlitAPIException (msg : string) : exn := OtherError msg.

Definition not_an_emoji : exn :=
  StreamlitAPIException "The value is not a valid emoji. Shortcodes are not allowed, please use a single character instead.".

(** [st.toast(msg, icon=icon)] *)
Definition st_toast (msg icon : string) : M unit :=
  if valid_icon icon then act (emit (Toast msg)) else raise not_an_emoji.
Definition st_error (msg : string) : M unit := act (emit (Error msg)).
Definition st_warning (msg : string) : M unit := act (emit (Warning msg)).
Definition st_rerun : M unit := act (emit Rerun).

(** ** [get_connection], [run_query], [fetch_data] *)

Definition get_connection (env : Env) : M handle := connect (on_connect env).

(** The [icon] of line 60 as the source file has it: the seven bytes
    c3 a2 c5 93 e2 80 a6, which are three characters (a with circumflex,
    the oe ligature, an ellipsis) and not one emoji. *)
Definition success_icon : string :=
  string_of_list_ascii (map ascii_of_nat [195; 162; 197; 147; 226; 128; 166]%nat).

(** The body of the [try] block of [run_query], from the cursor on. *)
Definition run_query_statement (env : Env) (conn cursor : handle) (query : string)
    (params : option (list value)) : M unit :=
  cursor_execute (on_execute env) cursor query params ;;;
  conn_commit (on_commit env) conn ;;;
  st_toast "Operation successful!" success_icon.

(** [run_query].  The two locals [conn] and [cursor] start as [None] and hold
    whatever the [try] block had assigned when it was left; the [except]
    clause takes a [mysql.connector.Error] and nothing else; the [finally]
    block runs on every way out. *)
Definition run_query (env : Env) (query : string) (params : option (list value))
  : M unit := fun w =>
  (* try *)
  let '(w, conn, cursor, r) :=
    match get_connection env w with
    | (w, Raises e) => (w, None, None, Raises e)
    | (w, Returns conn) =>
      match conn_cursor (on_cursor env) conn w with
      | (w, Raises e) => (w, Some conn, None, Raises e)
      | (w, Returns cursor) =>
        let '(w, r) := run_query_statement env conn cursor query params w in
        (w, Some conn, Some cursor, r)
      end
    end in
  (* except mysql.connector.Error as err *)
  let '(w, r) :=
    match r with
    | Raises (DbError err) => st_error ("Error: " +:+ err) w
    | _ => (w, r)
    end in
  (* finally *)
  let w := match cursor with
           | Some k => cursor_close k w
           | None => w
           end in
  let w := match conn with
           | Some c => if conn_is_connected c w then conn_close c w else w
           | None => w
           end in
  (w, r).

(** The [try] block of [fetch_data]. *)
Definition fetch_data_try (env : Env) (query : string) (params : option (list value))
  : M DataFrame :=
  conn <- get_connection env ;;
  df <- read_sql (on_read env) query conn params ;;
  act (conn_close conn) ;;;
  ret df.

(** [fetch_data]: [except Exception] takes every exception of the block. *)
Definition fetch_data (env : Env) (query : string) (params : option (list value))
  : M DataFrame := fun w =>
  match fetch_data_try env query params w with
  | (w, Returns df) => (w, Returns df)
  | (w, Raises _) => (w, Returns DataFrame_new)
  end.

(** ** The dashboard tab *)

(** Python's [round] to a number of decimals: to the nearest, ties to even. *)
Definition round_half_even (q : Q) : Z :=
  let f := Qfloor q in
  match Qcompare (q - inject_Z f) (1 # 2) with
  | Lt => f
  | Gt => (f + 1)%Z
  | Eq => if Z.even f then f else (f + 1)%Z
  end.

Definition round2 (q : Q) : Q := Qred (Qmake (round_half_even (q * 100)) 100).

(** The float64 nearest to a rational (ties to even), as the exact
    rational it stands for: the number that [pandas] puts in the table for a
    decimal of the store.  Subnormal and overflowing magnitudes are out of
    the range of costs and are not treated apart. *)
Definition pow2 (e : Z) : Q :=
  match e with
  | Z0 => 1
  | Zpos p => inject_Z (2 ^ Zpos p)
  | Zneg p => Qmake 1 (2 ^ p)
  end.

Definition float64_at (q : Q) (e : Z) : Q :=
  inject_Z (round_half_even (q * pow2 (- e))) * pow2 e.

Definition float64 (x : Q) : Q :=
  let q := Qred x in
  if (Qnum q =? 0)%Z then 0
  else
    let e0 := (Z.log2 (Z.abs (Qnum q)) - Z.log2 (Zpos (Qden q)) - 52)%Z in
    let m := Qabs (q * pow2 (- e0)) in
    let e := if Qle_bool (inject_Z (2 ^ 53)) m then (e0 + 1)%Z
             else if Qle_bool (inject_Z (2 ^ 52)) m then e0
             else (e0 - 1)%Z in
    Qred (float64_at q e).

(** [round(x, 2)] on the float in the table. *)
Definition py_round2 (v : value) : result Q :=
  match v with
  | VNum q => Returns (round2 (float64 q))
  | VInt n => Returns (inject_Z n)
  | _ => Raises (OtherError "type doesn't define __round__ method")
  end.

(** Line 100: [round(df.iloc[0]['avg_cost'], 2) if not df.empty and
    df.iloc[0]['avg_cost'] else 0.0]. *)
Definition avg_cost_of (avg_cost_df : DataFrame) : result Q :=
  if negb (empty avg_cost_df) then
    match iloc0 avg_cost_df "avg_cost" with
    | Raises e => Raises e
    | Returns v =>
      if truthy v then
        match iloc0 avg_cost_df "avg_cost" with
        | Raises e => Raises e
        | Returns v => py_round2 v
        end
      else Returns 0%Q
    end
  else Returns 0%Q.

(** Lines 96 to 104: the three numbers handed to the metric cards.  Each of
    the three fetches runs in its own conditions. *)
Definition tab_dash_metrics (env1 env2 env3 : Env) : M (value * value * Q) :=
  df1 <- fetch_data env1 sql_count_students None ;;
  total_students <- lift (iloc0 df1 "count") ;;
  df2 <- fetch_data env2 sql_count_assignments None ;;
  total_services <- lift (iloc0 df2 "count") ;;
  avg_cost_df <- fetch_data env3 sql_avg_cost None ;;
  avg_cost <- lift (avg_cost_of avg_cost_df) ;;
  ret (total_students, total_services, avg_cost).

(** Lines 153 to 159: the table under "Recent Service History". *)
Definition tab_dash_history (env : Env) (search_term : string) : M DataFrame :=
  if truthy_str search_term then
    fetch_data env sql_view_history_like (Some [VStr ("%" +:+ search_term +:+ "%")])
  else
    fetch_data env sql_view_history None.

(** ** The students tab *)

(** Lines 186 to 198. *)
Definition add_student_form (env : Env) (s_id f_name l_name email : string)
    (submitted : bool) : M unit :=
  if submitted then
    if truthy_str s_id && truthy_str f_name then
      run_query env sql_insert_student
                (Some [VStr s_id; VStr f_name; VStr l_name; VStr email]) ;;;
      st_rerun
    else
      st_warning "Missing details."
  else ret tt.

(** Lines 202 to 206. *)
Definition delete_student_button (env : Env) (del_id : string) (clicked : bool) : M unit :=
  if clicked then
    if truthy_str del_id then
      run_query env sql_delete_student (Some [VStr del_id]) ;;;
      st_rerun
    else ret tt
  else ret tt.

(** ** The services tab *)

(** Lines 220 to 227. *)
Definition add_service_form (env : Env) (s_name : string) (cost : Q) (submitted : bool)
  : M unit :=
  if submitted then
    run_query env sql_insert_service (Some [VStr s_name; VNum cost]) ;;;
    st_rerun
  else ret tt.

(** ** The assignment tab *)

Definition rbind {A B : Type} (r : result A) (k : A -> result B) : result B :=
  match r with
  | Returns a => k a
  | Raises e => Raises e
  end.

(** [row[col]] for a row that [iterrows] yields. *)
Definition row_get (cols : list string) (row : list value) (col : string) : result value :=
  match index_of col cols with
  | None => Raises (KeyError col)
  | Some i => match nth_error row i with
              | Some v => Returns v
              | None => Raises (KeyError col)
              end
  end.

(** [st.number_input(..., value=v)]: what the user typed, or the initial
    value when the field was left alone. *)
Definition number_input (initial : Q) (typed : option Q) : Q :=
  match typed with
  | Some q => q
  | None => initial
  end.

Definition py_float (v : value) : result Q :=
  match v with
  | VNum q => Returns q
  | VInt n => Returns (inject_Z n)
  | _ => Raises (OtherError "float() argument must be a string or a real number")
  end.

Section AssignTab.

(** How Python prints a [float] inside an f-string. *)
Variable str_float : Q -> string.

Definition two_digits (n : Z) : string :=
  if (n <? 10)%Z then "0" +:+ pretty n else pretty n.

(** [f"{v}"] *)
Definition fmt (v : value) : string :=
  match v with
  | VNull => "None"
  | VStr s => s
  | VInt n => pretty n
  | VNum q => str_float q
  | VDate d => pretty (year d) +:+ "-" +:+ two_digits (month d) +:+ "-" +:+ two_digits (day d)
  end.

(** Line 237: a dict from "first last" to the student's id; a label met
    again takes the later row's id. *)
Fixpoint student_options_from (cols : list string) (rs : list (list value))
    (acc : gmap string value) : result (gmap string value) :=
  match rs with
  | [] => Returns acc
  | row :: rs' =>
    rbind (row_get cols row "first_name") (fun fn =>
    rbind (row_get cols row "last_name") (fun ln =>
    rbind (row_get cols row "student_id") (fun sid =>
    student_options_from cols rs' (<[fmt fn +:+ " " +:+ fmt ln := sid]> acc))))
  end.

Definition student_options (students : DataFrame) : result (gmap string value) :=
  student_options_from (columns students) (rows students) ∅.

(** Line 238: a dict from "name ($cost)" to the pair (service id, base
    cost). *)
Fixpoint service_options_from (cols : list string) (rs : list (list value))
    (acc : gmap string (value * value)) : result (gmap string (value * value)) :=
  match rs with
  | [] => Returns acc
  | row :: rs' =>
    rbind (row_get cols row "service_name") (fun name =>
    rbind (row_get cols row "base_cost") (fun cost =>
    rbind (row_get cols row "service_id") (fun svc =>
    service_options_from cols rs'
      (<[fmt name +:+ " ($" +:+ fmt cost +:+ ")" := (svc, cost)]> acc))))
  end.

Definition service_options (services : DataFrame) : result (gmap string (value * value)) :=
  service_options_from (columns services) (rows services) ∅.

(** [d[key]] *)
Definition dict_get {V : Type} (d : gmap string V) (key : string) : result V :=
  match d !! key with
  | Some v => Returns v
  | None => Raises (KeyError key)
  end.

(** Lines 233 to 259.  The two select boxes give back one of the labels
    offered; [typed_cost] is what the user put in the cost field, if
    anything; [confirm] is the button.  The two fetches and the insert run
    each in its own conditions. *)
Definition tab_assign (env1 env2 env : Env) (sel_student_label sel_service_label : string)
    (service_date : date) (typed_cost : option Q) (confirm : bool) : M unit :=
  students <- fetch_data env1 sql_student_choices None ;;
  services <- fetch_data env2 sql_service_choices None ;;
  if negb (empty students) && negb (empty services) then
    student_options <- lift (student_options students) ;;
    service_options <- lift (service_options services) ;;
    choice <- lift (dict_get service_options sel_service_label) ;;
    default_cost <- lift (py_float (snd choice)) ;;
    let final_cost := number_input default_cost typed_cost in
    if confirm then
      s_id <- lift (dict_get student_options sel_student_label) ;;
      choice <- lift (dict_get service_options sel_service_label) ;;
      let svc_id := fst choice in
      run_query env sql_insert_assignment
                (Some [s_id; svc_id; VDate service_date; VNum final_cost])
    else ret tt
  else
    st_warning "Add students and services first.".

End AssignTab.

(** ** What the page puts on the screen around the data *)

Inductive widget :=
| AltairChart (data : DataFrame) (x y : string)
| InfoBox (msg : string)
| Table (data : DataFrame).

(** Lines 111 to 122: the bar chart of the total cost per student, or the
    note that stands in for it. *)
Definition tab_dash_cost_chart (env : Env) : M widget :=
  df_cost <- fetch_data env sql_view_total_cost None ;;
  if negb (empty df_cost) then ret (AltairChart df_cost "student_id" "total_cost")
  else ret (InfoBox "No cost data available.").

(** Lines 134 to 146: the bar chart of the use of each service, or the note
    that stands in for it. *)
Definition tab_dash_popularity_chart (env : Env) : M widget :=
  df_popularity <- fetch_data env sql_popularity None ;;
  if negb (empty df_popularity)
  then ret (AltairChart df_popularity "usage_count" "service_name")
  else ret (InfoBox "No service data available.").

(** Lines 180 and 181: the table of current students. *)
Definition tab_students_table (env : Env) : M widget :=
  students <- fetch_data env sql_all_students None ;;
  ret (Table students).

(** Lines 214 and 215: the table of available services. *)
Definition tab_services_table (env : Env) : M widget :=
  services <- fetch_data env sql_all_services None ;;
  ret (Table services).

(** ** Sample data *)

Definition binary : Schema := {| collate := fun c => c; on_delete_student := Restrict |}.

Definition empty_store : Store :=
  {| schema := binary; Students := []; Services := []; StudentServices := [];
     next_service_id := 1; next_assignment_id := 1 |}.

Definition world_of (st : Store) : World :=
  {| store := st; conns := ∅; cursors := ∅; next_handle := O; log := [] |}.

(** The server cannot be reached. *)
Definition unreachable : Env :=
  {| on_connect := Fault (DbError "Can't connect to MySQL server") false;
     on_cursor := NoFault; on_execute := NoFault; on_commit := NoFault;
     on_read := NoFault |}.

Definition ada : Student :=
  {| student_id := "S104"; first_name := "Ada"; last_name := "Lovelace";
     email := "ada@example.com" |}.

(** One student, nothing assigned. *)
Definition roster : Store :=
  {| schema := binary; Students := [ada]; Services := []; StudentServices := [];
     next_service_id := 1; next_assignment_id := 1 |}.

Definition campus : Store :=
  {| schema := binary;
     Students := [ada];
     Services := [ {| service_id := 1; service_name := "Tutoring"; base_cost := 25 |} ];
     StudentServices :=
       [ {| ss_id := 1; ss_student_id := "S104"; ss_service_id := 1;
            service_date := {| year := 2024; month := 5; day := 1 |};
            service_cost := 20 |} ];
     next_service_id := 2; next_assignment_id := 2 |}.

Definition on_day (d : Z) : date := {| year := 2024; month := 5; day := d |}.

(** Three assignments, entered out of order and with one cost written as a
    fraction that is not in lowest terms. *)
Definition three_costs : Store :=
  {| schema := binary;
     Students := [ada];
     Services := [ {| service_id := 1; service_name := "Tutoring"; base_cost := 25 |} ];
     StudentServices :=
       [ {| ss_id := 1; ss_student_id := "S104"; ss_service_id := 1;
            service_date := on_day 1; service_cost := 20 |};
         {| ss_id := 2; ss_student_id := "S104"; ss_service_id := 1;
            service_date := on_day 2; service_cost := Qmake 1000 100 |};
         {| ss_id := 3; ss_student_id := "S104"; ss_service_id := 1;
            service_date := on_day 3; service_cost := 30 |} ];
     next_service_id := 2; next_assignment_id := 4 |}.

(** A stand-in for Python's printing of a float, right on whole numbers. *)
Definition show_cost (q : Q) : string := pretty (Qfloor q) +:+ ".0".

(** Faults for single steps. *)
Definition commit_breaks : Env :=
  {| on_connect := NoFault; on_cursor := NoFault; on_execute := NoFault;
     on_commit := Fault (DbError "Lost connection to MySQL server during query") true;
     on_read := NoFault |}.

Definition driver_crashes : Env :=
  {| on_connect := NoFault; on_cursor := NoFault;
     on_execute := Fault (OtherError "Python type cannot be converted") false;
     on_commit := NoFault; on_read := NoFault |}.

Definition read_breaks : Env :=
  {| on_connect := NoFault; on_cursor := NoFault; on_execute := NoFault;
     on_commit := NoFault; on_read := Fault (OtherError "Timeout") false |}.

(** Two students of one name. *)
Definition ada_again : Student :=
  {| student_id := "S200"; first_name := "Ada"; last_name := "Lovelace";
     email := "ada.l@example.com" |}.

Definition namesakes : Store :=
  {| schema := binary; Students := [ada; ada_again]; Services := [];
     StudentServices := []; next_service_id := 1; next_assignment_id := 1 |}.

(** The row of a Student in the table that line 233 fetches. *)
Definition student_choice_row (s : Student) : list value :=
  [VStr (student_id s); VStr (first_name s); VStr (last_name s)].

(** * The vocabulary of the properties *)

Local Open Scope list_scope.

(** The call meets no fault of the driver. *)
Definition no_faults (env : Env) : Prop :=
  on_connect env = NoFault /\ on_cursor env = NoFault /\
  on_execute env = NoFault /\ on_commit env = NoFault.

(** The three ways a call to [run_query] can end, seen from outside: the
    statement's effect is committed, after which [st.toast] refuses the icon
    of line 60 and its exception leaves the function; a database error is
    shown and nothing is committed; another exception leaves the function
    and nothing is committed.  [seen] is what the server was sent before the
    call gave up. *)
Inductive run_query_outcome (query : string) (params : option (list value))
    (w w' : World) (r : result unit) : Prop :=
| Applied (st' : Store) (n : Z) :
    execute query params (store w) = Returns (st', n) ->
    store w' = st' ->
    r = Raises not_an_emoji ->
    log w' = log w ++ [Executed query params n; Committed] ->
    run_query_outcome query params w w' r
| Abandoned (err : string) (seen : list event) :
    store w' = store w ->
    r = Returns tt ->
    log w' = log w ++ seen ++ [Error ("Error: " +:+ err)] ->
    Committed ∉ seen ->
    run_query_outcome query params w w' r
| Escaped (e : exn) (seen : list event) :
    store w' = store w ->
    r = Raises e ->
    (forall err, e <> DbError err) ->
    log w' = log w ++ seen ->
    Committed ∉ seen ->
    run_query_outcome query params w w' r.

(** "Contains the term as a substring", character by character under the
    comparison [eqc] of the column. *)
Fixpoint is_prefix (eqc : ascii -> ascii -> bool) (t s : list ascii) : bool :=
  match t, s with
  | [], _ => true
  | _ :: _, [] => false
  | c :: t', x :: s' => eqc x c && is_prefix eqc t' s'
  end.

Fixpoint contains (eqc : ascii -> ascii -> bool) (t s : list ascii) : bool :=
  is_prefix eqc t s ||
  match s with
  | [] => false
  | _ :: s' => contains eqc t s'
  end.

Definition name_contains (sc : Schema) (term name : string) : bool :=
  contains (fun x y => Ascii.eqb (collate sc x) (collate sc y))
           (list_ascii_of_string term) (list_ascii_of_string name).

(** A character that [LIKE] takes for itself. *)
Definition plain_char (c : ascii) : bool :=
  negb (Ascii.eqb c "%") && negb (Ascii.eqb c "_") && negb (Ascii.eqb c "\").

Definition plain (term : string) : bool :=
  forallb plain_char (list_ascii_of_string term).

(** Every handle from the counter on is unused: what [connect] and
    [conn_cursor] hand out next is new. *)
Definition fresh (w : World) : Prop :=
  forall h, (next_handle w <= h)%nat -> conns w !! h = None /\ cursors w !! h = None.

(** The label under which line 237 offers a student. *)
Definition student_label (s : Student) : string :=
  first_name s +:+ " " +:+ last_name s.

(** Every assignment names a Student and a Service that exist. *)
Definition integrity (st : Store) : Prop :=
  forall a, In a (StudentServices st) ->
    has_student st (ss_student_id a) = true /\ has_service st (ss_service_id a) = true.

(** No two Students share an identifier. *)
Fixpoint unique_ids (sc : Schema) (l : list Student) : Prop :=
  match l with
  | [] => True
  | s :: l' =>
    existsb (fun s' => sql_eq sc (student_id s') (student_id s)) l' = false /\
    unique_ids sc l'
  end.

(** A search term made of [%] only. *)
Definition only_percent (term : string) : bool :=
  forallb (fun c => Ascii.eqb c "%") (list_ascii_of_string term).

(** The identifiers of the Services are below the counter that numbers the
    next one. *)
Definition ids_below (st : Store) : Prop :=
  forall sv, In sv (Services st) -> (service_id sv < next_service_id st)%Z.

(** The log of [w'] goes on from that of [w] with the statement and its
    commit, and no database error is shown after them. *)
Definition committed_quietly (w w' : World) (sql : string) (params : option (list value))
    (n : Z) : Prop :=
  exists rest,
    log w' = log w ++ Executed sql params n :: Committed :: rest /\
    forall msg, Error msg ∉ rest.

(** * Properties *)

(** ** [run_query] *)


Lemma calm_no_faults : no_faults calm.
Proof. repeat split. Qed.

Arguments execute : simpl never.
Arguments read : simpl never.

Ltac unfold_script :=
  unfold fetch_data, fetch_data_try, read_sql, ret, run_query, get_connection, connect, conn_cursor, run_query_statement, bind,
    cursor_execute, session_of, conn_commit, st_toast, raise, st_error, act, cursor_close,
    conn_is_connected, conn_close, drop_link, emit, set_store, set_conns, set_cursors,
    fresh_handle; simpl.

Ltac map_simpl :=
  simpl;
  repeat (first [ rewrite lookup_insert_eq | rewrite lookup_delete_eq
                | rewrite delete_insert_eq ]; simpl).

(** On the path with no fault and a statement the store accepts, the call
    commits the statement's effect and leaves no handle; the toast that
    should follow raises, so nothing is shown and the exception leaves the
    function. *)
Lemma run_query_commits env query params w st' n :
  no_faults env ->
  execute query params (store w) = Returns (st', n) ->
  run_query env query params w =
    ({| store := st';
        conns := delete (next_handle w) (conns w);
        cursors := delete (S (next_handle w)) (cursors w);
        next_handle := S (S (next_handle w));
        log := log w ++ [Executed query params n; Committed] |},
     Raises not_an_emoji).
Proof.
  destruct env as [fc fk fe fm fr]; intros (Hc & Hk & He & Hm) Hex; simpl in *; subst.
  unfold_script. map_simpl. rewrite Hex. map_simpl.
  rewrite <- !app_assoc. reflexivity.
Qed.

(** On the path with no fault and a statement the store refuses, nothing is
    committed and the store's message is shown. *)
Lemma run_query_refused env query params w err :
  no_faults env ->
  execute query params (store w) = Raises (DbError err) ->
  run_query env query params w =
    ({| store := store w;
        conns := delete (next_handle w) (conns w);
        cursors := delete (S (next_handle w)) (cursors w);
        next_handle := S (S (next_handle w));
        log := log w ++ [Error ("Error: " +:+ err)] |},
     Returns tt).
Proof.
  destruct env as [fc fk fe fm fr]; intros (Hc & Hk & He & Hm) Hex; simpl in *; subst.
  unfold_script. map_simpl. rewrite Hex. map_simpl. reflexivity.
Qed.

(** The engine reports every refusal as a database error. *)
Lemma execute_raises_db query params st e :
  execute query params st = Raises e -> exists err, e = DbError err.
Proof.
  unfold execute, bind_params, exec_command, eval_query.
  intros H. repeat case_match; simplify_eq; eauto.
Qed.


Lemma not_committed_nil : Committed ∉ @nil event.
Proof. apply not_elem_of_nil. Qed.

Lemma not_committed_executed sql params n : Committed ∉ [Executed sql params n].
Proof. intros H. apply list_elem_of_singleton in H. discriminate. Qed.

Ltac close_outcome :=
  simpl;
  first
    [ eapply Applied; simpl; [ eassumption | reflexivity | reflexivity
                             | rewrite <- ?app_assoc; reflexivity ]
    | eapply (Abandoned _ _ _ _ _ _ []); simpl;
      [ reflexivity | reflexivity | reflexivity | apply not_committed_nil ]
    | eapply (Abandoned _ _ _ _ _ _ [_]); simpl;
      [ reflexivity | reflexivity | rewrite <- ?app_assoc; reflexivity
      | apply not_committed_executed ]
    | eapply (Escaped _ _ _ _ _ _ []); simpl;
      [ reflexivity | reflexivity | discriminate | rewrite ?app_nil_r; reflexivity
      | apply not_committed_nil ]
    | eapply (Escaped _ _ _ _ _ _ [_]); simpl;
      [ reflexivity | reflexivity | discriminate | reflexivity
      | apply not_committed_executed ] ].

Ltac split_fault f :=
  let e := fresh "e" in
  let lost := fresh "lost" in
  destruct f as [|e lost]; [| destruct e, lost ]; map_simpl.

Lemma run_query_outcomes env query params w :
  run_query_outcome query params w
    (fst (run_query env query params w)) (snd (run_query env query params w)).
Proof.
  destruct env as [fc fk fe fm fr].
  unfold_script.
  split_fault fc; try close_outcome.
  split_fault fk; try close_outcome.
  split_fault fe; try close_outcome.
  - destruct (execute query params (store w)) as [[txn' n]|e] eqn:Hex; map_simpl.
    + split_fault fm; close_outcome.
    + destruct (execute_raises_db _ _ _ _ Hex) as [err ->]. map_simpl. close_outcome.
Qed.

(** C1 fails on the code, on its success half.  With the server reachable
    and a statement the store accepts (here the INSERT of the Add Service
    form), [run_query] executes and commits, and then line 60 calls
    [st.toast] with an icon that is three characters and no emoji: the call
    raises, the exception is not a [mysql.connector.Error], and it leaves the
    function after the [finally] block.  The row is in the store, no
    success is shown, and the caller does not get to its next line. *)
Theorem run_query_commits_then_raises :
  valid_icon success_icon = false /\
  execute sql_insert_service (Some [VStr "Tutoring"; VNum 25]) (store (world_of roster))
    = Returns (add_service roster "Tutoring" 25, 1%Z) /\
  store (fst (run_query calm sql_insert_service (Some [VStr "Tutoring"; VNum 25])
                        (world_of roster)))
    = add_service roster "Tutoring" 25 /\
  snd (run_query calm sql_insert_service (Some [VStr "Tutoring"; VNum 25])
                 (world_of roster))
    = Raises not_an_emoji /\
  log (fst (run_query calm sql_insert_service (Some [VStr "Tutoring"; VNum 25])
                      (world_of roster)))
    = [Executed sql_insert_service (Some [VStr "Tutoring"; VNum 25]) 1; Committed].
Proof.
  assert (Hex : execute sql_insert_service (Some [VStr "Tutoring"; VNum 25])
                        (store (world_of roster))
                = Returns (add_service roster "Tutoring" 25, 1%Z)) by reflexivity.
  rewrite (run_query_commits _ _ _ _ _ _ calm_no_faults Hex).
  repeat split; reflexivity.
Qed.

(** What holds of [run_query] on every path: the committed store afterwards
    is the one the statement produces or the one the call started from, and
    a database error never leaves the function; with no fault, a statement
    the store refuses (a parameter count that does not match the
    placeholders included) commits nothing and shows "Error: " followed by
    the store's message. *)
Lemma run_query_store_all_or_nothing env query params w :
  ((exists st' n, execute query params (store w) = Returns (st', n) /\
                  store (fst (run_query env query params w)) = st') \/
   store (fst (run_query env query params w)) = store w) /\
  (forall err, snd (run_query env query params w) <> Raises (DbError err)) /\
  (no_faults env ->
   forall e, execute query params (store w) = Raises e ->
     exists err, e = DbError err /\
     store (fst (run_query env query params w)) = store w /\
     snd (run_query env query params w) = Returns tt /\
     log (fst (run_query env query params w)) = log w ++ [Error ("Error: " +:+ err)]).
Proof.
  split; [|split].
  - destruct (run_query_outcomes env query params w)
      as [st' n Hex Hst _ _ | err seen Hst _ _ _ | e seen Hst _ _ _ _]; eauto.
  - intros err.
    destruct (run_query_outcomes env query params w)
      as [st' n _ _ Hr _ | err' seen _ Hr _ _ | e seen _ Hr Hne _ _]; rewrite Hr.
    + discriminate.
    + discriminate.
    + intros H. injection H as ->. exact (Hne err eq_refl).
  - intros Hnf e Hex. destruct (execute_raises_db _ _ _ _ Hex) as [err ->].
    exists err. rewrite (run_query_refused _ _ _ _ _ Hnf Hex). auto.
Qed.

(** ** No handle outlives [run_query] *)

Ltac close_subseteq :=
  apply map_subseteq_spec; intros ? ?;
  rewrite ?lookup_delete, ?lookup_insert;
  repeat case_decide; congruence.

(** C3.  On every way out of [run_query] (success, a caught database error
    at any step, or an exception that leaves the function) every connection
    and every cursor that is open afterwards was open before the call: the
    ones the call opened are closed. *)
Theorem run_query_releases_handles env query params w :
  conns (fst (run_query env query params w)) ⊆ conns w /\
  cursors (fst (run_query env query params w)) ⊆ cursors w.
Proof.
  destruct env as [fc fk fe fm fr].
  unfold_script.
  split_fault fc; try (split; close_subseteq).
  split_fault fk; try (split; close_subseteq).
  split_fault fe; try (split; close_subseteq).
  destruct (execute query params (store w)) as [[txn' n]|e] eqn:Hex; map_simpl.
  - split_fault fm; split; close_subseteq.
  - destruct (execute_raises_db _ _ _ _ Hex) as [err ->]. map_simpl.
    split; close_subseteq.
Qed.

(** ** [fetch_data] *)

(** The path of [fetch_data] on which nothing fails. *)
Lemma fetch_data_reads env query params w txn' df :
  on_connect env = NoFault ->
  on_read env = NoFault ->
  read query params (store w) = (txn', Returns df) ->
  fetch_data env query params w =
    ({| store := store w;
        conns := delete (next_handle w) (conns w);
        cursors := cursors w;
        next_handle := S (next_handle w);
        log := log w ++ [Executed query params (-1)] |},
     Returns df).
Proof.
  destruct env as [fc fk fe fm fr]; simpl; intros -> -> Hrd.
  unfold_script. map_simpl. rewrite Hrd. map_simpl. reflexivity.
Qed.

(** The path on which [read_sql] raises for a reason in the statement: the
    [except] clause returns the empty table, and the session opened two
    lines earlier is still there. *)
Lemma fetch_data_read_fails env query params w txn' e :
  on_connect env = NoFault ->
  on_read env = NoFault ->
  read query params (store w) = (txn', Raises e) ->
  fetch_data env query params w =
    ({| store := store w;
        conns := <[next_handle w := txn']> (conns w);
        cursors := cursors w;
        next_handle := S (next_handle w);
        log := log w |},
     Returns DataFrame_new).
Proof.
  destruct env as [fc fk fe fm fr]; simpl; intros -> -> Hrd.
  unfold_script. map_simpl. rewrite Hrd. map_simpl.
  rewrite insert_insert_eq. reflexivity.
Qed.

Lemma read_query sql params st q args df :
  bind_params sql params = Returns args ->
  parse sql = Some (Qry q) ->
  eval_query q args st = Returns df ->
  read sql params st = (st, Returns df).
Proof. unfold read. intros -> -> ->. reflexivity. Qed.

(** [fetch_data] always returns a table, and never touches committed data. *)
Lemma fetch_data_total env query params w :
  exists df, snd (fetch_data env query params w) = Returns df /\
             store (fst (fetch_data env query params w)) = store w.
Proof.
  destruct env as [fc fk fe fm fr].
  unfold_script.
  split_fault fc; eauto.
  split_fault fr; eauto.
  destruct (read query params (store w)) as [txn' [df|e]]; map_simpl; eauto.
Qed.

(** Every result set carries the column names of its statement. *)
Lemma eval_query_columns q args st df :
  eval_query q args st = Returns df -> columns df <> [].
Proof.
  unfold eval_query. intros H.
  repeat case_match; simplify_eq; discriminate.
Qed.

(** C2, as the code has it.  [fetch_data] returns a table in every case and
    raises nothing: with the server reachable and a read statement it
    accepts, the table is the store's result set for that statement, with
    its column names even when it has no row; when the connection cannot be
    opened, when the read fails on the way, or when the statement is
    refused, the table is [pd.DataFrame()], which has no column.  That
    table and every result set without rows answer [.empty] alike, and
    [.iloc[0]] raises on either. *)
Theorem fetch_data_table_or_empty env query params w :
  (exists df, snd (fetch_data env query params w) = Returns df) /\
  (on_connect env = NoFault -> on_read env = NoFault ->
   forall q args df,
     bind_params query params = Returns args ->
     parse query = Some (Qry q) ->
     eval_query q args (store w) = Returns df ->
     snd (fetch_data env query params w) = Returns df /\ columns df <> []) /\
  (forall e lost, on_connect env = Fault e lost ->
     snd (fetch_data env query params w) = Returns DataFrame_new) /\
  (forall e lost, on_read env = Fault e lost ->
     snd (fetch_data env query params w) = Returns DataFrame_new) /\
  (forall e, snd (read query params (store w)) = Raises e ->
     snd (fetch_data env query params w) = Returns DataFrame_new) /\
  columns DataFrame_new = [] /\
  empty DataFrame_new = true /\
  (forall df, rows df = [] -> empty df = true) /\
  (forall df col, rows df = [] -> iloc0 df col = Raises IndexError).
Proof.
  split; [destruct (fetch_data_total env query params w) as (df & H & _); eauto|].
  split.
  { intros Hc Hr q args df Hb Hp He.
    rewrite (fetch_data_reads _ _ _ _ _ _ Hc Hr (read_query _ _ _ _ _ _ Hb Hp He)).
    split; [reflexivity|]. exact (eval_query_columns _ _ _ _ He). }
  split.
  { intros e lost Hc. destruct env as [fc fk fe fm fr]; simpl in Hc; subst.
    unfold_script. reflexivity. }
  split.
  { intros e lost Hr. destruct env as [fc fk fe fm fr]; simpl in Hr; subst.
    unfold_script. destruct fc; map_simpl; reflexivity. }
  split.
  { intros e Hrd. destruct env as [fc fk fe fm fr].
    unfold_script. split_fault fc; try reflexivity.
    split_fault fr; try reflexivity.
    destruct (read query params (store w)) as [txn' [df|e']]; simpl in *;
      [discriminate | reflexivity]. }
  split; [reflexivity|]. split; [reflexivity|]. split.
  - intros df Hrows. unfold empty. rewrite Hrows. destruct (columns df); reflexivity.
  - intros df col Hrows. unfold iloc0. rewrite Hrows. reflexivity.
Qed.

Lemma fetch_data_table_or_empty_witness :
  snd (fetch_data calm sql_all_students None (world_of campus)) =
    Returns {| columns := ["student_id"; "first_name"; "last_name"; "email"];
               rows := [[VStr "S104"; VStr "Ada"; VStr "Lovelace"; VStr "ada@example.com"]] |} /\
  snd (fetch_data calm sql_popularity None (world_of campus)) =
    Returns {| columns := ["service_name"; "usage_count"];
               rows := [[VStr "Tutoring"; VInt 1]] |} /\
  snd (fetch_data unreachable sql_all_students None (world_of campus)) = Returns DataFrame_new /\
  snd (fetch_data calm "SELECT * FROM Nowhere" None (world_of campus)) = Returns DataFrame_new.
Proof.
  pose proof (fetch_data_table_or_empty calm sql_all_students None (world_of campus))
    as (_ & Hok & _).
  pose proof (fetch_data_table_or_empty calm sql_popularity None (world_of campus))
    as (_ & Hpop & _).
  pose proof (fetch_data_table_or_empty unreachable sql_all_students None (world_of campus))
    as (_ & _ & Hconn & _).
  pose proof (fetch_data_table_or_empty calm "SELECT * FROM Nowhere" None (world_of campus))
    as (_ & _ & _ & _ & Hbad & _).
  split; [|split; [|split]].
  - apply (Hok eq_refl eq_refl AllStudents []); reflexivity.
  - apply (Hpop eq_refl eq_refl Popularity []); reflexivity.
  - apply (Hconn (DbError "Can't connect to MySQL server") false). reflexivity.
  - apply (Hbad (OtherError "Execution failed on sql: You have an error in your SQL syntax")).
    reflexivity.
Defined.

(** C2, as the spec words it, fails: the table returned for a failure and
    the table returned for a result set without rows are different values.
    The second keeps the column names of the statement. *)
Lemma fetch_data_failure_differs_from_no_rows :
  snd (fetch_data calm sql_all_students None (world_of empty_store)) =
    Returns {| columns := ["student_id"; "first_name"; "last_name"; "email"]; rows := [] |} /\
  snd (fetch_data unreachable sql_all_students None (world_of empty_store)) =
    Returns {| columns := []; rows := [] |} /\
  snd (fetch_data calm sql_all_students None (world_of empty_store)) <>
  snd (fetch_data unreachable sql_all_students None (world_of empty_store)).
Proof. split; [reflexivity|]. split; [reflexivity|]. discriminate. Qed.

(** [fetch_data] closes what it opened when nothing fails. *)
Lemma fetch_data_closes_on_success env query params w txn' df :
  on_connect env = NoFault ->
  on_read env = NoFault ->
  read query params (store w) = (txn', Returns df) ->
  conns (fst (fetch_data env query params w)) ⊆ conns w.
Proof.
  intros Hc Hr Hrd. rewrite (fetch_data_reads _ _ _ _ _ _ Hc Hr Hrd). simpl.
  apply delete_subseteq.
Qed.

(** C4 fails on the code.  With the server reachable and a statement the
    store refuses, [read_sql] raises, the [except] clause returns, and
    [conn.close()] on the line after [read_sql] is never reached: handle 0,
    which was not open before the call, is open after it. *)
Theorem fetch_data_leaves_connection_open :
  conns (world_of campus) !! O = None /\
  snd (fetch_data calm "SELECT * FROM Nowhere" None (world_of campus)) = Returns DataFrame_new /\
  conns (fst (fetch_data calm "SELECT * FROM Nowhere" None (world_of campus))) !! O
    = Some campus.
Proof.
  assert (Hrd : read "SELECT * FROM Nowhere" None (store (world_of campus)) =
                (campus, Raises (OtherError
                   "Execution failed on sql: You have an error in your SQL syntax")))
    by reflexivity.
  rewrite (fetch_data_read_fails calm _ _ _ _ _ eq_refl eq_refl Hrd). simpl.
  split; [apply lookup_empty|]. split; [reflexivity|].
  apply lookup_insert_eq.
Qed.

(** ** Deleting a Student *)

Lemma filter_none {A : Type} (f : A -> bool) (l : list A) :
  existsb f l = false -> List.filter f l = [].
Proof.
  induction l as [|x l IH]; simpl; [reflexivity|].
  destruct (f x); simpl; [discriminate|]. exact IH.
Qed.

Lemma filter_negb_none {A : Type} (f : A -> bool) (l : list A) :
  existsb f l = false -> List.filter (fun x => negb (f x)) l = l.
Proof.
  induction l as [|x l IH]; simpl; [reflexivity|].
  destruct (f x); simpl; [discriminate|]. intros H. f_equal. exact (IH H).
Qed.

Lemma existsb_filter_negb {A : Type} (f : A -> bool) (l : list A) :
  existsb f (List.filter (fun x => negb (f x)) l) = false.
Proof.
  induction l as [|x l IH]; simpl; [reflexivity|].
  destruct (f x) eqn:E; simpl; [exact IH|]. rewrite E. exact IH.
Qed.

Lemma delete_student_absent st sid :
  has_student st sid = false -> delete_student st sid = st.
Proof.
  unfold delete_student, has_student, with_students. intros H. rewrite H.
  rewrite (filter_negb_none _ _ H). destruct st; reflexivity.
Qed.

Lemma has_student_delete_student st sid :
  has_student (delete_student st sid) sid = false.
Proof.
  unfold has_student, delete_student, with_students, is_student; simpl.
  apply (existsb_filter_negb (fun s => sql_eq (schema st) (student_id s) sid)).
Qed.

Lemma execute_delete_permitted st sid :
  on_delete_student (schema st) = Cascade \/ referenced st sid = false ->
  execute sql_delete_student (Some [VStr sid]) st =
    Returns (delete_student st sid,
             Z.of_nat (length (List.filter (is_student st sid) (Students st)))).
Proof.
  intros H. change (execute sql_delete_student (Some [VStr sid]) st)
    with (exec_command DeleteStudent [VStr sid] st).
  unfold exec_command. destruct (on_delete_student (schema st)); [|reflexivity].
  destruct H as [H|H]; [discriminate|]. rewrite H, andb_false_r. reflexivity.
Qed.

Lemma execute_delete_absent st sid :
  has_student st sid = false ->
  execute sql_delete_student (Some [VStr sid]) st = Returns (st, 0%Z).
Proof.
  intros H. change (execute sql_delete_student (Some [VStr sid]) st)
    with (exec_command DeleteStudent [VStr sid] st).
  unfold exec_command. rewrite H, (delete_student_absent _ _ H). simpl.
  rewrite (filter_none _ _ H). simpl. destruct (on_delete_student (schema st)); reflexivity.
Qed.

Lemma execute_delete_restricted st sid :
  on_delete_student (schema st) = Restrict ->
  has_student st sid = true -> referenced st sid = true ->
  execute sql_delete_student (Some [VStr sid]) st =
    Raises (DbError "Cannot delete or update a parent row: a foreign key constraint fails").
Proof.
  intros Hr Hs Href.
  change (execute sql_delete_student (Some [VStr sid]) st)
    with (exec_command DeleteStudent [VStr sid] st).
  unfold exec_command. rewrite Hr, Hs, Href. reflexivity.
Qed.

(** C5, as the spec words it, fails: on a store whose schema restricts
    deletes, the first delete of a Student who has an assignment is refused;
    the row stays and the store's message is shown. *)
Lemma delete_student_refused_first_time :
  on_delete_student (schema campus) = Restrict /\
  has_student campus "S104" = true /\
  referenced campus "S104" = true /\
  store (fst (run_query calm sql_delete_student (Some [VStr "S104"]) (world_of campus)))
    = campus /\
  log (fst (run_query calm sql_delete_student (Some [VStr "S104"]) (world_of campus)))
    = [Error "Error: Cannot delete or update a parent row: a foreign key constraint fails"].
Proof. repeat split; reflexivity. Qed.

(** C5, as the code has it.  With the server reachable: for an identifier
    the store lets go (no assignment refers to it, or the schema cascades)
    the first delete is committed and leaves no row with that identifier,
    and the second is committed with zero rows and changes nothing, no
    database error being shown for either; where the schema restricts and an
    assignment refers to the Student, the delete is refused, nothing is
    removed and the store's message is shown; for an identifier no Student
    has, the delete is committed with zero rows and changes nothing. *)
Theorem delete_student_twice w sid :
  let del := run_query calm sql_delete_student (Some [VStr sid]) in
  let w1 := fst (del w) in
  let w2 := fst (del w1) in
  (on_delete_student (schema (store w)) = Cascade \/ referenced (store w) sid = false ->
   store w1 = delete_student (store w) sid /\
   has_student (store w1) sid = false /\
   committed_quietly w w1 sql_delete_student (Some [VStr sid])
     (Z.of_nat (length (List.filter (is_student (store w) sid) (Students (store w))))) /\
   store w2 = store w1 /\
   committed_quietly w1 w2 sql_delete_student (Some [VStr sid]) 0) /\
  (on_delete_student (schema (store w)) = Restrict ->
   has_student (store w) sid = true -> referenced (store w) sid = true ->
   store w1 = store w /\
   snd (del w) = Returns tt /\
   exists msg, log w1 = log w ++ [Error ("Error: " +:+ msg)]) /\
  (has_student (store w) sid = false ->
   store w1 = store w /\
   committed_quietly w w1 sql_delete_student (Some [VStr sid]) 0).
Proof.
  intros del w1 w2.
  assert (Habsent : forall v, has_student (store v) sid = false ->
            store (fst (del v)) = store v /\
            committed_quietly v (fst (del v)) sql_delete_student (Some [VStr sid]) 0).
  { intros v Hv. unfold del.
    rewrite (run_query_commits _ _ _ _ _ _ calm_no_faults (execute_delete_absent _ _ Hv)).
    split; [reflexivity|]. exists []. split; [reflexivity|]. intros m. apply not_elem_of_nil. }
  split; [|split; [|apply Habsent]].
  - intros Hperm.
    assert (H1 : del w =
              ({| store := delete_student (store w) sid;
                  conns := delete (next_handle w) (conns w);
                  cursors := delete (S (next_handle w)) (cursors w);
                  next_handle := S (S (next_handle w));
                  log := log w ++
                    [Executed sql_delete_student (Some [VStr sid])
                       (Z.of_nat (length (List.filter (is_student (store w) sid)
                                                      (Students (store w)))));
                     Committed] |}, Raises not_an_emoji)).
    { unfold del.
      apply (run_query_commits _ _ _ _ _ _ calm_no_faults
               (execute_delete_permitted _ _ Hperm)). }
    assert (Hgone : has_student (store w1) sid = false).
    { unfold w1. rewrite H1. apply has_student_delete_student. }
    destruct (Habsent w1 Hgone) as (Hs2 & Hl2).
    fold w2 in Hs2, Hl2.
    repeat split; try assumption; unfold w1; rewrite H1; try reflexivity.
    exists []. split; [reflexivity|]. intros m. apply not_elem_of_nil.
  - intros Hr Hs Href. unfold w1, del.
    rewrite (run_query_refused _ _ _ _ _ calm_no_faults
               (execute_delete_restricted _ _ Hr Hs Href)).
    repeat split. eexists. reflexivity.
Qed.

Lemma delete_student_twice_witness :
  referenced roster "S104" = false /\
  has_student (store (fst (run_query calm sql_delete_student (Some [VStr "S104"])
                                     (world_of roster)))) "S104" = false /\
  on_delete_student (schema campus) = Restrict /\
  has_student campus "S104" = true /\ referenced campus "S104" = true /\
  store (fst (run_query calm sql_delete_student (Some [VStr "S104"]) (world_of campus)))
    = campus /\
  has_student campus "S999" = false /\
  store (fst (run_query calm sql_delete_student (Some [VStr "S999"]) (world_of campus)))
    = campus.
Proof.
  pose proof (delete_student_twice (world_of roster) "S104") as (Hfirst & _).
  pose proof (delete_student_twice (world_of campus) "S104") as (_ & Hrefused & _).
  pose proof (delete_student_twice (world_of campus) "S999") as (_ & _ & Habsent).
  destruct (Hfirst (or_intror eq_refl)) as (_ & Hgone & _).
  destruct (Hrefused eq_refl eq_refl eq_refl) as (Hkept & _).
  destruct (Habsent eq_refl) as (Hsame & _).
  repeat split; assumption.
Defined.

(** ** The name filter of the dashboard *)


Section Like.

Variable eqc : ascii -> ascii -> bool.

Lemma like_percent p s :
  like eqc ("%"%char :: p) s =
  like eqc p s || match s with [] => false | _ :: s' => like eqc ("%"%char :: p) s' end.
Proof. destruct s; reflexivity. Qed.

Lemma like_plain c p s :
  plain_char c = true ->
  like eqc (c :: p) s =
  match s with [] => false | x :: s' => eqc x c && like eqc p s' end.
Proof.
  unfold plain_char. intros H.
  apply andb_prop in H as [H H3]. apply andb_prop in H as [H1 H2].
  apply negb_true_iff in H1, H2, H3.
  simpl. rewrite H1, H2, H3. reflexivity.
Qed.

Lemma like_percent_only s : like eqc ["%"%char] s = true.
Proof.
  induction s as [|x s IH]; [reflexivity|].
  rewrite like_percent, IH. apply orb_true_r.
Qed.

Lemma like_prefix t s :
  forallb plain_char t = true ->
  like eqc (t ++ ["%"%char]) s = is_prefix eqc t s.
Proof.
  revert s. induction t as [|c t IH]; intros s Ht.
  - simpl app. rewrite like_percent_only. destruct s; reflexivity.
  - simpl in Ht. apply andb_prop in Ht as [Hc Ht].
    simpl app. rewrite (like_plain _ _ _ Hc).
    destruct s as [|x s]; [reflexivity|]. simpl. rewrite (IH _ Ht). reflexivity.
Qed.

(** With no metacharacter in the term, [%term%] matches exactly the
    strings that contain the term. *)
Lemma like_contains t s :
  forallb plain_char t = true ->
  like eqc ("%"%char :: t ++ ["%"%char]) s = contains eqc t s.
Proof.
  intros Ht. induction s as [|x s IH].
  - rewrite like_percent, (like_prefix _ _ Ht). simpl. destruct t; reflexivity.
  - rewrite like_percent, (like_prefix _ _ Ht), IH. reflexivity.
Qed.

End Like.

Lemma list_ascii_of_string_app (a b : string) :
  list_ascii_of_string (a +:+ b) = list_ascii_of_string a ++ list_ascii_of_string b.
Proof. induction a as [|c a IH]; simpl; [reflexivity|]. rewrite IH. reflexivity. Qed.

Lemma sql_like_contains sc term name :
  plain term = true ->
  sql_like sc name ("%" +:+ term +:+ "%") = name_contains sc term name.
Proof.
  intros Hp. unfold sql_like, name_contains.
  rewrite !list_ascii_of_string_app. simpl.
  apply like_contains. exact Hp.
Qed.

(** Under the binary collation [contains] is the textbook notion. *)
Lemma is_prefix_spec t s :
  is_prefix Ascii.eqb t s = true <-> exists b, s = t ++ b.
Proof.
  revert s. induction t as [|c t IH]; intros s; simpl.
  - split; eauto.
  - destruct s as [|x s].
    + split; [discriminate|]. intros [b Hb]. discriminate.
    + rewrite andb_true_iff, Ascii.eqb_eq, IH. split.
      * intros [-> [b ->]]. eauto.
      * intros [b Hb]. injection Hb as -> ->. eauto.
Qed.

Lemma contains_spec t s :
  contains Ascii.eqb t s = true <-> exists a b, s = a ++ t ++ b.
Proof.
  induction s as [|x s IH]; simpl.
  - rewrite orb_false_r, is_prefix_spec. split.
    + intros [b Hb]. exists [], b. exact Hb.
    + intros (a & b & H). symmetry in H. apply app_eq_nil in H as [-> H].
      exists b. symmetry. exact H.
  - rewrite orb_true_iff, is_prefix_spec, IH. split.
    + intros [[b Hb] | (a & b & ->)].
      * exists [], b. exact Hb.
      * exists (x :: a), b. reflexivity.
    + intros (a & b & H). destruct a as [|y a].
      * left. exists b. exact H.
      * right. injection H as -> ->. eauto.
Qed.

Lemma filter_ext_eq {A : Type} (f g : A -> bool) (l : list A) :
  (forall x, f x = g x) -> List.filter f l = List.filter g l.
Proof.
  intros H. induction l as [|x l IH]; simpl; [reflexivity|].
  rewrite H, IH. reflexivity.
Qed.

(** What the table under "Recent Service History" holds for a non-empty
    term, whatever the term: the rows of the view whose name matches the
    pattern made of the term between two [%]. *)
Lemma tab_dash_history_like w term :
  term <> "" ->
  tab_dash_history calm term w =
    ({| store := store w;
        conns := delete (next_handle w) (conns w);
        cursors := cursors w;
        next_handle := S (next_handle w);
        log := log w ++ [Executed sql_view_history_like
                                  (Some [VStr ("%" +:+ term +:+ "%")]) (-1)] |},
     Returns {| columns := history_columns;
                rows := map history_values
                  (List.filter
                     (fun h => sql_like (schema (store w)) (student_name h)
                                        ("%" +:+ term +:+ "%"))
                     (vw_student_services (store w))) |}).
Proof.
  intros Hne. unfold tab_dash_history.
  destruct term as [|c term]; [congruence|].
  change (truthy_str (String c term)) with true. cbv iota.
  apply (fetch_data_reads _ _ _ _ (store w)); reflexivity.
Qed.

(** C6, as the code has it.  With the server reachable: for a non-empty
    term the statement is the [LIKE] statement with the single positional
    parameter [%term%], and the table holds the rows of
    [vw_student_services] whose student_name matches that pattern; when the
    term has none of the characters [%], [_] and backslash, these are
    exactly the rows whose student_name contains the term (compared under
    the collation of the column); for the empty term the whole view is
    fetched. *)
Theorem tab_dash_history_filter w term :
  (term <> "" ->
   log (fst (tab_dash_history calm term w)) =
     log w ++ [Executed sql_view_history_like (Some [VStr ("%" +:+ term +:+ "%")]) (-1)] /\
   snd (tab_dash_history calm term w) =
     Returns {| columns := history_columns;
                rows := map history_values
                  (List.filter
                     (fun h => sql_like (schema (store w)) (student_name h)
                                        ("%" +:+ term +:+ "%"))
                     (vw_student_services (store w))) |}) /\
  (term <> "" -> plain term = true ->
   snd (tab_dash_history calm term w) =
     Returns {| columns := history_columns;
                rows := map history_values
                  (List.filter
                     (fun h => name_contains (schema (store w)) term (student_name h))
                     (vw_student_services (store w))) |}) /\
  snd (tab_dash_history calm "" w) =
    Returns {| columns := history_columns;
               rows := map history_values (vw_student_services (store w)) |}.
Proof.
  split; [|split].
  - intros Hne. rewrite (tab_dash_history_like _ _ Hne). split; reflexivity.
  - intros Hne Hp. rewrite (tab_dash_history_like _ _ Hne). simpl. do 3 f_equal.
    apply filter_ext_eq. intros h. apply sql_like_contains. exact Hp.
  - change (tab_dash_history calm "" w) with (fetch_data calm sql_view_history None w).
    rewrite (fetch_data_reads calm sql_view_history None w (store w)
               {| columns := history_columns;
                  rows := map history_values (vw_student_services (store w)) |});
      reflexivity.
Qed.

Lemma tab_dash_history_filter_witness :
  "Love" <> "" /\ plain "Love" = true /\
  snd (tab_dash_history calm "Love" (world_of campus)) =
    Returns {| columns := history_columns;
               rows := [[VStr "S104"; VStr "Ada Lovelace"; VStr "Tutoring";
                         VDate {| year := 2024; month := 5; day := 1 |}; VNum 20]] |} /\
  "A_a" <> "" /\
  snd (tab_dash_history calm "A_a" (world_of campus)) =
    Returns {| columns := history_columns;
               rows := [[VStr "S104"; VStr "Ada Lovelace"; VStr "Tutoring";
                         VDate {| year := 2024; month := 5; day := 1 |}; VNum 20]] |}.
Proof.
  assert (Hne : "Love" <> "") by discriminate.
  assert (Hne' : "A_a" <> "") by discriminate.
  pose proof (tab_dash_history_filter (world_of campus) "Love") as (_ & H & _).
  pose proof (tab_dash_history_filter (world_of campus) "A_a") as (H' & _).
  split; [exact Hne|]. split; [reflexivity|]. split; [exact (H Hne eq_refl)|].
  split; [exact Hne'|]. exact (proj2 (H' Hne')).
Defined.

(** C6, as the spec words it, fails: the term [_] holds no character of
    "Ada Lovelace", and the row comes back all the same, because [LIKE]
    reads the term as a pattern. *)
Lemma tab_dash_history_wildcard_term :
  "_" <> "" /\
  name_contains binary "_" "Ada Lovelace" = false /\
  snd (tab_dash_history calm "_" (world_of campus)) =
    Returns {| columns := history_columns;
               rows := [[VStr "S104"; VStr "Ada Lovelace"; VStr "Tutoring";
                         VDate {| year := 2024; month := 5; day := 1 |}; VNum 20]] |}.
Proof. split; [discriminate|]. split; reflexivity. Qed.

(** ** The metric cards *)

(** A fetch that cannot connect, or whose read breaks on the way, gives the
    empty table. *)
Lemma fetch_data_fault env query params w :
  on_connect env <> NoFault \/ on_read env <> NoFault ->
  snd (fetch_data env query params w) = Returns DataFrame_new.
Proof.
  destruct env as [fc fk fe fm fr]; simpl. intros H.
  unfold_script.
  split_fault fc; try reflexivity.
  split_fault fr; try reflexivity.
  destruct H; congruence.
Qed.

Lemma avg_cost_of_new : avg_cost_of DataFrame_new = Returns 0%Q.
Proof. reflexivity. Qed.

Lemma avg_cost_of_null : avg_cost_of {| columns := ["avg_cost"]; rows := [[VNull]] |} = Returns 0%Q.
Proof. reflexivity. Qed.

Lemma avg_cost_of_num q :
  Qeq_bool q 0 = false ->
  avg_cost_of {| columns := ["avg_cost"]; rows := [[VNum q]] |}
    = Returns (round2 (float64 q)).
Proof.
  intros H. unfold avg_cost_of, empty, iloc0; simpl. rewrite H. reflexivity.
Qed.

(** The first four lines of the metrics, when both counts can be fetched. *)
Lemma tab_dash_metrics_counts env1 env2 env3 w :
  on_connect env1 = NoFault -> on_read env1 = NoFault ->
  on_connect env2 = NoFault -> on_read env2 = NoFault ->
  exists w2, store w2 = store w /\
    tab_dash_metrics env1 env2 env3 w =
      match fetch_data env3 sql_avg_cost None w2 with
      | (w3, Returns avg_cost_df) =>
        match avg_cost_of avg_cost_df with
        | Returns avg_cost =>
          (w3, Returns (VInt (Z.of_nat (length (Students (store w)))),
                        VInt (Z.of_nat (length (StudentServices (store w)))),
                        avg_cost))
        | Raises e => (w3, Raises e)
        end
      | (w3, Raises e) => (w3, Raises e)
      end.
Proof.
  intros Hc1 Hr1 Hc2 Hr2. unfold tab_dash_metrics, bind.
  rewrite (fetch_data_reads env1 sql_count_students None w (store w) _ Hc1 Hr1 eq_refl).
  unfold lift at 1. cbn [iloc0 rows columns index_of String.eqb Ascii.eqb Bool.eqb nth_error].
  match goal with
  | |- context [fetch_data env2 sql_count_assignments None ?v] =>
    rewrite (fetch_data_reads env2 sql_count_assignments None v (store w) _ Hc2 Hr2 eq_refl)
  end.
  unfold lift at 1. cbn [iloc0 rows columns index_of String.eqb Ascii.eqb Bool.eqb nth_error].
  eexists. split; [|unfold lift, ret; reflexivity]. reflexivity.
Qed.

Lemma fetch_avg_cost_reads env w :
  on_connect env = NoFault -> on_read env = NoFault ->
  snd (fetch_data env sql_avg_cost None w) =
    Returns {| columns := ["avg_cost"];
               rows := [[ match StudentServices (store w) with
                          | [] => VNull
                          | l => VNum (Qsum (map service_cost l) /
                                       inject_Z (Z.of_nat (length l)))
                          end ]] |}.
Proof.
  intros Hc Hr.
  rewrite (fetch_data_reads env sql_avg_cost None w (store w) _ Hc Hr eq_refl).
  reflexivity.
Qed.

(** C9.  When both counts can be fetched and either [StudentServices] has
    no row (the average is NULL) or the fetch of the average fails, the
    dashboard computes its three metrics without raising and the average
    cost it shows is 0.0. *)
Theorem avg_cost_metric_defaults_to_zero env1 env2 env3 w :
  on_connect env1 = NoFault -> on_read env1 = NoFault ->
  on_connect env2 = NoFault -> on_read env2 = NoFault ->
  StudentServices (store w) = [] \/ on_connect env3 <> NoFault \/ on_read env3 <> NoFault ->
  snd (tab_dash_metrics env1 env2 env3 w) =
    Returns (VInt (Z.of_nat (length (Students (store w)))),
             VInt (Z.of_nat (length (StudentServices (store w)))),
             0%Q).
Proof.
  intros Hc1 Hr1 Hc2 Hr2 H.
  destruct (tab_dash_metrics_counts env1 env2 env3 w Hc1 Hr1 Hc2 Hr2) as (w2 & Hst & ->).
  assert (Havg : exists df, snd (fetch_data env3 sql_avg_cost None w2) = Returns df /\
                            avg_cost_of df = Returns 0%Q).
  { destruct (fault_eq_dec (on_connect env3) NoFault) as [Hc3|Hc3];
      [destruct (fault_eq_dec (on_read env3) NoFault) as [Hr3|Hr3]|].
    - destruct H as [Hnone|[?|?]]; try contradiction.
      rewrite (fetch_avg_cost_reads _ _ Hc3 Hr3), Hst, Hnone.
      eexists; split; [reflexivity|]. apply avg_cost_of_null.
    - rewrite (fetch_data_fault env3 _ _ w2 (or_intror Hr3)).
      eexists; split; [reflexivity|]. apply avg_cost_of_new.
    - rewrite (fetch_data_fault env3 _ _ w2 (or_introl Hc3)).
      eexists; split; [reflexivity|]. apply avg_cost_of_new. }
  destruct Havg as (df & Hdf & Hzero).
  destruct (fetch_data env3 sql_avg_cost None w2) as [w3 r]; simpl in Hdf; subst r.
  rewrite Hzero. reflexivity.
Qed.

Lemma avg_cost_metric_defaults_to_zero_witness :
  StudentServices (store (world_of roster)) = [] /\
  snd (tab_dash_metrics calm calm calm (world_of roster)) = Returns (VInt 1, VInt 0, 0%Q) /\
  on_connect unreachable <> NoFault /\
  snd (tab_dash_metrics calm calm unreachable (world_of campus)) =
    Returns (VInt 1, VInt 1, 0%Q).
Proof.
  assert (Hdown : on_connect unreachable <> NoFault) by discriminate.
  split; [reflexivity|]. split; [|split; [exact Hdown|]].
  - exact (avg_cost_metric_defaults_to_zero calm calm calm (world_of roster)
             eq_refl eq_refl eq_refl eq_refl (or_introl eq_refl)).
  - exact (avg_cost_metric_defaults_to_zero calm calm unreachable (world_of campus)
             eq_refl eq_refl eq_refl eq_refl (or_intror (or_introl Hdown))).
Defined.

(** When the server is down for the whole page, the script does not get as
    far as the average: line 96 indexes the empty table. *)
Lemma tab_dash_metrics_server_down w :
  snd (tab_dash_metrics unreachable unreachable unreachable w) = Raises IndexError.
Proof. reflexivity. Qed.

(** ** The average *)

Lemma Qsum_Qred (l : list Q) : (Qsum (map Qred l) == Qsum l)%Q.
Proof.
  induction l as [|q l IH]; simpl; [reflexivity|].
  rewrite IH, Qred_correct. reflexivity.
Qed.

Lemma Qsum_perm (l l' : list Q) : Permutation l l' -> (Qsum l == Qsum l')%Q.
Proof.
  induction 1 as [|x l l' _ IH|x y l|l l' l'' _ IH1 _ IH2]; simpl.
  - reflexivity.
  - rewrite IH. reflexivity.
  - ring.
  - rewrite IH1. exact IH2.
Qed.

Lemma round_half_even_comp (q q' : Q) :
  (q == q')%Q -> round_half_even q = round_half_even q'.
Proof.
  intros H. unfold round_half_even. cbv zeta.
  rewrite (Qfloor_comp _ _ H).
  assert (Hc : Qcompare (q - inject_Z (Qfloor q')) (1 # 2) =
               Qcompare (q' - inject_Z (Qfloor q')) (1 # 2)).
  { apply Qcompare_comp; [|reflexivity]. apply Qplus_comp; [exact H|reflexivity]. }
  rewrite Hc. reflexivity.
Qed.

Lemma round2_comp (q q' : Q) : (q == q')%Q -> round2 q = round2 q'.
Proof.
  intros H. unfold round2.
  rewrite (round_half_even_comp (q * 100) (q' * 100)); [reflexivity|].
  rewrite H. reflexivity.
Qed.

Lemma float64_comp (q q' : Q) : (q == q')%Q -> float64 q = float64 q'.
Proof. intros H. unfold float64. rewrite (Qred_complete _ _ H). reflexivity. Qed.

(** C8.  With the server reachable and three assignments whose costs are
    10.00, 20.00 and 30.00 in some order, the average the dashboard shows
    is 20.00 after rounding to two decimals. *)
Theorem avg_cost_metric_scenario w :
  Permutation (map Qred (map service_cost (StudentServices (store w)))) [10; 20; 30]%Q ->
  snd (tab_dash_metrics calm calm calm w) =
    Returns (VInt (Z.of_nat (length (Students (store w)))), VInt 3, 20%Q).
Proof.
  intros Hperm.
  assert (Hlen : length (StudentServices (store w)) = 3%nat).
  { apply Permutation_length in Hperm. rewrite !length_map in Hperm. exact Hperm. }
  assert (Hsum : (Qsum (map service_cost (StudentServices (store w))) == 60)%Q).
  { rewrite <- Qsum_Qred, (Qsum_perm _ _ Hperm). reflexivity. }
  assert (Havg : (Qsum (map service_cost (StudentServices (store w))) /
                  inject_Z (Z.of_nat (length (StudentServices (store w)))) == 20)%Q).
  { rewrite Hsum, Hlen. reflexivity. }
  destruct (tab_dash_metrics_counts calm calm calm w eq_refl eq_refl eq_refl eq_refl)
    as (w2 & Hst & ->).
  pose proof (fetch_avg_cost_reads calm w2 eq_refl eq_refl) as Hdf.
  rewrite Hst in Hdf.
  destruct (StudentServices (store w)) as [|a l] eqn:Hss; [discriminate|].
  destruct (fetch_data calm sql_avg_cost None w2) as [w3 r]; cbn [snd] in Hdf; subst r.
  rewrite avg_cost_of_num.
  - cbn [snd]. rewrite Hlen. do 2 f_equal.
    rewrite Hlen in Havg. rewrite (float64_comp _ _ Havg).
    vm_compute. reflexivity.
  - destruct (Qeq_bool _ 0) eqn:E; [|reflexivity].
    apply Qeq_bool_iff in E. rewrite Havg in E. discriminate.
Qed.

Lemma avg_cost_metric_scenario_witness :
  Permutation
    (map Qred (map service_cost (StudentServices (store (world_of three_costs)))))
    [10; 20; 30]%Q /\
  snd (tab_dash_metrics calm calm calm (world_of three_costs)) =
    Returns (VInt 1, VInt 3, 20%Q).
Proof.
  assert (H : Permutation
    (map Qred (map service_cost (StudentServices (store (world_of three_costs)))))
    [10; 20; 30]%Q).
  { simpl. apply perm_swap. }
  split; [exact H|]. exact (avg_cost_metric_scenario (world_of three_costs) H).
Defined.

(** ** The Add Student form *)

Lemma truthy_str_false s : truthy_str s = false <-> s = "".
Proof. destruct s; simpl; split; congruence. Qed.

Lemma truthy_str_true s : truthy_str s = true <-> s <> "".
Proof. destruct s; simpl; split; congruence. Qed.

Lemma execute_insert_student st s_id f_name l_name email :
  has_student st s_id = false ->
  execute sql_insert_student (Some [VStr s_id; VStr f_name; VStr l_name; VStr email]) st =
    Returns (with_students st
               (Students st ++
                  [ {| student_id := s_id; first_name := f_name; last_name := l_name;
                       email := email |} ])
               (StudentServices st), 1%Z).
Proof.
  intros H.
  change (execute sql_insert_student (Some [VStr s_id; VStr f_name; VStr l_name; VStr email]) st)
    with (exec_command InsertStudent [VStr s_id; VStr f_name; VStr l_name; VStr email] st).
  unfold exec_command. rewrite H. reflexivity.
Qed.

(** C10.  On "Save Student": when the Student ID or the First Name is
    empty, the form shows "Missing details." and does nothing else, so no
    connection is opened, no statement is sent and the store is as it was;
    when both are non-empty it calls [run_query] with the INSERT and the four
    fields, whatever the last name and the email, and with the server
    reachable and the identifier free the row is committed. *)
Theorem add_student_form_guard env s_id f_name l_name email w :
  let insert :=
    run_query env sql_insert_student
              (Some [VStr s_id; VStr f_name; VStr l_name; VStr email]) in
  (s_id = "" \/ f_name = "" ->
   add_student_form env s_id f_name l_name email true w =
     (emit (Warning "Missing details.") w, Returns tt)) /\
  (s_id <> "" -> f_name <> "" ->
   add_student_form env s_id f_name l_name email true w = (insert ;;; st_rerun) w) /\
  (s_id <> "" -> f_name <> "" -> no_faults env -> has_student (store w) s_id = false ->
   Students (store (fst (add_student_form env s_id f_name l_name email true w))) =
     Students (store w) ++
       [ {| student_id := s_id; first_name := f_name; last_name := l_name;
            email := email |} ] /\
   committed_quietly w (fst (add_student_form env s_id f_name l_name email true w))
     sql_insert_student (Some [VStr s_id; VStr f_name; VStr l_name; VStr email]) 1).
Proof.
  intros insert.
  assert (Hgo : s_id <> "" -> f_name <> "" ->
            add_student_form env s_id f_name l_name email true w = (insert ;;; st_rerun) w).
  { intros H1 H2. unfold add_student_form.
    apply truthy_str_true in H1, H2. rewrite H1, H2. reflexivity. }
  split; [|split].
  - intros H. unfold add_student_form.
    assert (Hg : truthy_str s_id && truthy_str f_name = false).
    { apply andb_false_iff. destruct H as [->| ->]; [left|right]; reflexivity. }
    rewrite Hg. reflexivity.
  - exact Hgo.
  - intros H1 H2 Hnf Hfree. rewrite (Hgo H1 H2). unfold insert, bind.
    rewrite (run_query_commits _ _ _ _ _ _ Hnf (execute_insert_student _ _ _ _ _ Hfree)).
    simpl. split; [reflexivity|].
    exists []. split; [reflexivity|]. intros m. apply not_elem_of_nil.
Qed.

Lemma add_student_form_guard_witness :
  add_student_form calm "" "Grace" "Hopper" "grace@example.com" true (world_of campus) =
    (emit (Warning "Missing details.") (world_of campus), Returns tt) /\
  "S105" <> "" /\ "Grace" <> "" /\ no_faults calm /\
  has_student (store (world_of campus)) "S105" = false /\
  Students (store (fst (add_student_form calm "S105" "Grace" "" "" true (world_of campus)))) =
    [ ada; {| student_id := "S105"; first_name := "Grace"; last_name := ""; email := "" |} ].
Proof.
  assert (H1 : "S105" <> "") by discriminate.
  assert (H2 : "Grace" <> "") by discriminate.
  pose proof (add_student_form_guard calm "" "Grace" "Hopper" "grace@example.com"
                (world_of campus)) as (Hwarn & _).
  pose proof (add_student_form_guard calm "S105" "Grace" "" "" (world_of campus))
    as (_ & _ & Hrow).
  destruct (Hrow H1 H2 calm_no_faults eq_refl) as (Hstudents & _).
  split; [exact (Hwarn (or_introl eq_refl))|].
  split; [exact H1|]. split; [exact H2|]. split; [exact calm_no_faults|].
  split; [reflexivity|]. exact Hstudents.
Defined.

(** ** From the final cost to the total-cost view *)

Lemma sql_eq_refl sc a : sql_eq sc a a = true.
Proof. apply String.eqb_refl. Qed.

Lemma sql_eq_sym sc a b : sql_eq sc a b = sql_eq sc b a.
Proof. apply String.eqb_sym. Qed.

Lemma existsb_false_In {A : Type} (f : A -> bool) (l : list A) (x : A) :
  existsb f l = false -> In x l -> f x = false.
Proof.
  intros H Hin. destruct (f x) eqn:E; [|reflexivity].
  rewrite <- H. symmetry. apply existsb_exists. eauto.
Qed.

Lemma In_distinct {A : Type} (same : A -> A -> bool) (l : list A) (x : A) :
  In x (distinct same l) -> In x l.
Proof.
  revert x. induction l as [|y l IH]; simpl; intros x; [tauto|].
  intros [->|H]; [left; reflexivity|].
  right. apply IH. apply List.filter_In in H. tauto.
Qed.

Lemma distinct_snoc {A : Type} (same : A -> A -> bool) (l : list A) (y : A) :
  (forall x, In x l -> same x y = false) ->
  distinct same (l ++ [y]) = distinct same l ++ [y].
Proof.
  induction l as [|x l IH]; simpl; intros H; [reflexivity|].
  rewrite IH by auto. rewrite List.filter_app. simpl.
  rewrite (H x) by auto. reflexivity.
Qed.

Lemma vw_total_cost_add_assignment st sid svc d cost :
  referenced st sid = false ->
  vw_total_cost_per_student (add_assignment st sid svc d cost) =
    vw_total_cost_per_student st ++ [(sid, (cost + 0)%Q)].
Proof.
  intros Href. unfold vw_total_cost_per_student, add_assignment; simpl.
  assert (Hids : forall x, In x (map ss_student_id (StudentServices st)) ->
                           sql_eq (schema st) x sid = false).
  { intros x Hx. apply in_map_iff in Hx as (a & <- & Ha).
    exact (existsb_false_In _ _ _ Href Ha). }
  rewrite map_app. simpl. rewrite (distinct_snoc _ _ _ Hids), map_app. simpl.
  f_equal.
  - apply map_ext_in. intros id Hid. f_equal.
    unfold total_cost, refers_to; simpl. rewrite List.filter_app. simpl.
    rewrite sql_eq_sym, (Hids id (In_distinct _ _ _ Hid)), app_nil_r. reflexivity.
  - unfold total_cost; simpl. rewrite List.filter_app. simpl.
    unfold refers_to at 2; simpl. rewrite sql_eq_refl.
    unfold referenced in Href.
    rewrite (filter_none (refers_to st sid)) by exact Href.
    reflexivity.
Qed.

Lemma vw_total_cost_no_row st sid r :
  referenced st sid = false ->
  In r (vw_total_cost_per_student st) ->
  sql_eq (schema st) (fst r) sid = false.
Proof.
  intros Href Hr. unfold vw_total_cost_per_student in Hr.
  apply in_map_iff in Hr as (id & <- & Hid). simpl.
  apply In_distinct, in_map_iff in Hid as (a & <- & Ha).
  exact (existsb_false_In _ _ _ Href Ha).
Qed.

Lemma execute_insert_service st name cost :
  execute sql_insert_service (Some [VStr name; VNum cost]) st =
    Returns (add_service st name cost, 1%Z).
Proof. reflexivity. Qed.

Lemma execute_insert_assignment st sid svc d cost :
  has_student st sid = true ->
  has_service st svc = true ->
  execute sql_insert_assignment (Some [VStr sid; VInt svc; VDate d; VNum cost]) st =
    Returns (add_assignment st sid svc d cost, 1%Z).
Proof.
  intros H1 H2.
  change (execute sql_insert_assignment (Some [VStr sid; VInt svc; VDate d; VNum cost]) st)
    with (exec_command InsertAssignment [VStr sid; VInt svc; VDate d; VNum cost] st).
  unfold exec_command. rewrite H1, H2. reflexivity.
Qed.

Lemma has_service_add_service st name cost :
  has_service (add_service st name cost) (next_service_id st) = true.
Proof.
  unfold has_service, add_service; simpl.
  rewrite existsb_app. simpl. rewrite Z.eqb_refl. apply orb_true_iff. right. reflexivity.
Qed.

(** What "Confirm Service Record" does once both tables are there and the two
    labels are among the options: one call of [run_query], whose last
    parameter is the number in the cost field and not the base cost paired
    with the service. *)
Lemma tab_assign_confirm str_float w label_student label_service d typed
    students services sopts vopts s_id svc_id base :
  eval_query StudentChoices [] (store w) = Returns students ->
  eval_query ServiceChoices [] (store w) = Returns services ->
  empty students = false ->
  empty services = false ->
  student_options str_float students = Returns sopts ->
  sopts !! label_student = Some s_id ->
  service_options str_float services = Returns vopts ->
  vopts !! label_service = Some (svc_id, VNum base) ->
  tab_assign str_float calm calm calm label_student label_service d typed true w =
    run_query calm sql_insert_assignment
      (Some [s_id; svc_id; VDate d; VNum (number_input base typed)])
      {| store := store w;
         conns := delete (S (next_handle w)) (delete (next_handle w) (conns w));
         cursors := cursors w;
         next_handle := S (S (next_handle w));
         log := log w ++ [Executed sql_student_choices None (-1);
                          Executed sql_service_choices None (-1)] |}.
Proof.
  intros Hst Hsv Hne1 Hne2 Hso Hs Hvo Hv.
  unfold tab_assign, bind.
  rewrite (fetch_data_reads calm sql_student_choices None w (store w) students
             eq_refl eq_refl
             (read_query sql_student_choices None _ StudentChoices [] _ eq_refl eq_refl Hst)).
  match goal with
  | |- context [fetch_data calm sql_service_choices None ?v] =>
    rewrite (fetch_data_reads calm sql_service_choices None v (store w) services
               eq_refl eq_refl
               (read_query sql_service_choices None _ ServiceChoices [] _ eq_refl eq_refl Hsv))
  end.
  rewrite Hne1, Hne2. cbn [negb andb].
  unfold lift, dict_get. rewrite Hso, Hvo, Hv, Hs. cbn [snd fst py_float].
  cbn [next_handle conns cursors log store].
  rewrite <- app_assoc. reflexivity.
Qed.

Lemma has_student_nonempty st sid : has_student st sid = true -> Students st <> [].
Proof. unfold has_student. destruct (Students st); [discriminate|discriminate]. Qed.

(** C7.  With the server reachable: a Service is saved with some base cost,
    then on the assignment tab the user picks a Student who has no
    assignment yet and the new Service, types a final cost and confirms.
    The row added to [StudentServices] carries the typed cost, and the
    total-cost view then has, for that Student, one new row whose total is
    the typed cost, whatever the base cost. *)
Theorem final_cost_reaches_total_cost_view str_float w s_name base final d
    label_student label_service sid students services sopts vopts :
  let w1 := fst (add_service_form calm s_name base true w) in
  let svc := next_service_id (store w) in
  let w2 := fst (tab_assign str_float calm calm calm label_student label_service d
                            (Some final) true w1) in
  has_student (store w) sid = true ->
  referenced (store w) sid = false ->
  eval_query StudentChoices [] (store w1) = Returns students ->
  student_options str_float students = Returns sopts ->
  sopts !! label_student = Some (VStr sid) ->
  eval_query ServiceChoices [] (store w1) = Returns services ->
  service_options str_float services = Returns vopts ->
  vopts !! label_service = Some (VInt svc, VNum base) ->
  StudentServices (store w2) =
    StudentServices (store w) ++
      [ {| ss_id := next_assignment_id (store w); ss_student_id := sid;
           ss_service_id := svc; service_date := d; service_cost := final |} ] /\
  (forall r, In r (vw_total_cost_per_student (store w)) ->
             sql_eq (schema (store w)) (fst r) sid = false) /\
  exists total_cost, (total_cost == final)%Q /\
    snd (fetch_data calm sql_view_total_cost None w2) =
      Returns {| columns := ["student_id"; "total_cost"];
                 rows := map (fun r => [VStr (fst r); VNum (snd r)])
                             (vw_total_cost_per_student (store w))
                         ++ [[VStr sid; VNum total_cost]] |}.
Proof.
  intros w1 svc w2 Hhas Href Hst Hso Hs Hsv Hvo Hv.
  assert (Hw1 : store w1 = add_service (store w) s_name base).
  { unfold w1, add_service_form, bind.
    rewrite (run_query_commits _ _ _ _ _ _ calm_no_faults (execute_insert_service _ _ _)).
    reflexivity. }
  assert (Hne1 : empty students = false).
  { rewrite Hw1 in Hst. injection Hst as <-. unfold empty; simpl.
    pose proof (has_student_nonempty _ _ Hhas) as Hsome.
    destruct (Students (store w)); [contradiction|reflexivity]. }
  assert (Hne2 : empty services = false).
  { rewrite Hw1 in Hsv. injection Hsv as <-. unfold empty; simpl.
    destruct (Services (store w)); reflexivity. }
  assert (Hex : execute sql_insert_assignment
                  (Some [VStr sid; VInt svc; VDate d; VNum final]) (store w1) =
                Returns (add_assignment (store w1) sid svc d final, 1%Z)).
  { apply execute_insert_assignment; rewrite Hw1; [exact Hhas|].
    apply has_service_add_service. }
  assert (Hw2 : store w2 = add_assignment (store w1) sid svc d final).
  { unfold w2.
    rewrite (tab_assign_confirm str_float w1 label_student label_service d (Some final)
               students services sopts vopts (VStr sid) (VInt svc) base
               Hst Hsv Hne1 Hne2 Hso Hs Hvo Hv).
    cbn [number_input].
    erewrite run_query_commits; [reflexivity | exact calm_no_faults | exact Hex]. }
  split; [rewrite Hw2, Hw1; reflexivity|].
  split; [intros r; apply vw_total_cost_no_row; exact Href|].
  exists (final + 0)%Q. split; [ring|].
  rewrite (fetch_data_reads calm sql_view_total_cost None w2 (store w2) _
             eq_refl eq_refl eq_refl).
  cbn [snd]. rewrite Hw2, Hw1. do 2 f_equal.
  change (vw_total_cost_per_student
            (add_assignment (add_service (store w) s_name base) sid svc d final))
    with (vw_total_cost_per_student (add_assignment (store w) sid svc d final)).
  rewrite (vw_total_cost_add_assignment _ _ _ _ _ Href), map_app. reflexivity.
Qed.

Lemma final_cost_reaches_total_cost_view_witness :
  has_student roster "S104" = true /\
  referenced roster "S104" = false /\
  exists total_cost, (total_cost == 20)%Q /\
    snd (fetch_data calm sql_view_total_cost None
           (fst (tab_assign show_cost calm calm calm "Ada Lovelace" "Tutoring ($25.0)"
                            (on_day 2) (Some 20%Q) true
                            (fst (add_service_form calm "Tutoring" 25 true
                                                   (world_of roster)))))) =
      Returns {| columns := ["student_id"; "total_cost"];
                 rows := [[VStr "S104"; VNum total_cost]] |}.
Proof.
  split; [reflexivity|]. split; [reflexivity|].
  destruct (final_cost_reaches_total_cost_view show_cost (world_of roster)
              "Tutoring" 25 20 (on_day 2) "Ada Lovelace" "Tutoring ($25.0)" "S104"
              {| columns := ["student_id"; "first_name"; "last_name"];
                 rows := [[VStr "S104"; VStr "Ada"; VStr "Lovelace"]] |}
              {| columns := ["service_id"; "service_name"; "base_cost"];
                 rows := [[VInt 1; VStr "Tutoring"; VNum 25]] |}
              (<["Ada Lovelace" := VStr "S104"]> ∅)
              (<["Tutoring ($25.0)" := (VInt 1, VNum 25)]> ∅)
              eq_refl eq_refl eq_refl eq_refl (lookup_insert_eq _ _ _)
              eq_refl eq_refl (lookup_insert_eq _ _ _))
    as (_ & _ & total_cost & Htotal & Hview).
  exists total_cost. split; [exact Htotal|exact Hview].
Defined.


(** * Further properties of the data-access layer and of the handlers *)

(** ** [run_query]: handles, exceptions, the missing commit *)

Lemma delete_fresh {V : Type} (m : gmap nat V) (h : nat) :
  m !! h = None -> delete h m = m.
Proof. apply delete_id. Qed.

Ltac close_fresh Hc Hk Hf :=
  simpl; unfold handle in *; rewrite ?delete_insert_eq;
  rewrite ?(delete_fresh _ _ Hc), ?(delete_fresh _ _ Hk);
  split; [reflexivity|];
  split; [reflexivity|];
  let h := fresh "h" in
  let Hh := fresh "Hh" in
  intros h Hh; simpl in *; apply Hf; lia.

(** [run_query] closes what it opened and nothing else: in a world whose
    handle counter is ahead of every open handle, the open connections and
    cursors after the call are those before it, on every way out, and the
    counter is still ahead. *)
Theorem run_query_keeps_other_handles env query params w :
  fresh w ->
  conns (fst (run_query env query params w)) = conns w /\
  cursors (fst (run_query env query params w)) = cursors w /\
  fresh (fst (run_query env query params w)).
Proof.
  intros Hf.
  destruct (Hf (next_handle w) ltac:(lia)) as [Hc _].
  destruct (Hf (S (next_handle w)) ltac:(lia)) as [_ Hk].
  unfold fresh in Hf.
  destruct env as [fc fk fe fm fr].
  unfold fresh. unfold_script.
  split_fault fc; try (close_fresh Hc Hk Hf).
  split_fault fk; try (close_fresh Hc Hk Hf).
  split_fault fe; try (close_fresh Hc Hk Hf).
  destruct (execute query params (store w)) as [[txn' n]|e] eqn:Hex; map_simpl.
  - split_fault fm; close_fresh Hc Hk Hf.
  - destruct (execute_raises_db _ _ _ _ Hex) as [err ->]. map_simpl.
    close_fresh Hc Hk Hf.
Qed.

Lemma fresh_world_of st : fresh (world_of st).
Proof. intros h _. split; apply lookup_empty. Qed.

Lemma run_query_keeps_other_handles_witness :
  fresh (world_of campus) /\
  conns (fst (run_query unreachable sql_delete_student (Some [VStr "S104"])
                        (world_of campus))) = ∅ /\
  conns (fst (run_query calm sql_delete_student (Some [VStr "S104"])
                        (world_of campus))) = ∅.
Proof.
  pose proof (fresh_world_of campus) as Hf.
  split; [exact Hf|]. split.
  - exact (proj1 (run_query_keeps_other_handles unreachable _ _ _ Hf)).
  - exact (proj1 (run_query_keeps_other_handles calm _ _ _ Hf)).
Defined.

(** A statement that went through but whose commit fails is not kept: the
    store is as before, the user sees the driver's message, and the log shows
    the statement without a commit. *)
Theorem run_query_commit_failure_discards env query params w st' n msg lost :
  on_connect env = NoFault -> on_cursor env = NoFault -> on_execute env = NoFault ->
  on_commit env = Fault (DbError msg) lost ->
  execute query params (store w) = Returns (st', n) ->
  store (fst (run_query env query params w)) = store w /\
  snd (run_query env query params w) = Returns tt /\
  log (fst (run_query env query params w)) =
    log w ++ [Executed query params n; Error ("Error: " +:+ msg)].
Proof.
  destruct env as [fc fk fe fm fr]; simpl; intros -> -> -> -> Hex.
  unfold_script. map_simpl. rewrite Hex. map_simpl.
  destruct lost; map_simpl; rewrite <- app_assoc; auto.
Qed.

Lemma run_query_commit_failure_discards_witness :
  execute sql_delete_student (Some [VStr "S104"]) (store (world_of roster)) =
    Returns (delete_student roster "S104", 1%Z) /\
  store (fst (run_query commit_breaks sql_delete_student (Some [VStr "S104"])
                        (world_of roster))) = roster.
Proof.
  assert (Hex : execute sql_delete_student (Some [VStr "S104"]) (store (world_of roster)) =
                Returns (delete_student roster "S104", 1%Z)) by reflexivity.
  split; [exact Hex|].
  exact (proj1 (run_query_commit_failure_discards commit_breaks _ _ (world_of roster)
                  _ _ _ _ eq_refl eq_refl eq_refl eq_refl Hex)).
Defined.

(** An exception that is not a [mysql.connector.Error], raised while
    connecting, opening the cursor or executing, leaves [run_query] as it
    is: no message is shown, nothing is sent or committed. *)
Theorem run_query_lets_other_exceptions_through env query params w e lost :
  (forall msg, e <> DbError msg) ->
  on_connect env = Fault e lost \/
  (on_connect env = NoFault /\ on_cursor env = Fault e lost) \/
  (on_connect env = NoFault /\ on_cursor env = NoFault /\ on_execute env = Fault e lost) ->
  snd (run_query env query params w) = Raises e /\
  store (fst (run_query env query params w)) = store w /\
  log (fst (run_query env query params w)) = log w.
Proof.
  intros Hne H. destruct env as [fc fk fe fm fr]; simpl in H.
  unfold_script.
  destruct H as [->|[[-> ->]|(-> & -> & ->)]];
    destruct e, lost; map_simpl; try (exfalso; eapply Hne; reflexivity); auto.
Qed.

Lemma run_query_lets_other_exceptions_through_witness :
  snd (run_query driver_crashes sql_delete_student (Some [VStr "S104"]) (world_of roster)) =
    Raises (OtherError "Python type cannot be converted") /\
  log (fst (run_query driver_crashes sql_delete_student (Some [VStr "S104"])
                      (world_of roster))) = [].
Proof.
  assert (Hne : forall msg, OtherError "Python type cannot be converted" <> DbError msg)
    by discriminate.
  destruct (run_query_lets_other_exceptions_through driver_crashes sql_delete_student
              (Some [VStr "S104"]) (world_of roster) _ false Hne
              (or_intror (or_intror (conj eq_refl (conj eq_refl eq_refl)))))
    as (Hr & _ & Hl).
  split; [exact Hr|exact Hl].
Defined.

(** ** [fetch_data]: what it leaves behind *)

(** [fetch_data] never commits: whatever the text (a mutating statement
    included) and whatever goes wrong, the committed store is the one it
    found, and the log gains at most the record of the read. *)
Theorem fetch_data_never_commits env query params w :
  store (fst (fetch_data env query params w)) = store w /\
  (log (fst (fetch_data env query params w)) = log w \/
   log (fst (fetch_data env query params w)) = log w ++ [Executed query params (-1)]).
Proof.
  destruct env as [fc fk fe fm fr].
  unfold_script.
  split_fault fc; auto.
  split_fault fr; auto.
  destruct (read query params (store w)) as [txn' [df|e]]; map_simpl; auto.
Qed.

(** When [fetch_data] comes back with its connection still open, and when
    not.  In a world whose handle counter is ahead of every open handle: the
    open connections are as before if the connection could not be made, if
    the read went through, or if the link was lost with the failure; the new
    connection stays open if [read_sql] raised with the link still up, be it
    for a fault on the way or for a statement the store refuses. *)
Theorem fetch_data_open_connection env query params w :
  fresh w ->
  (on_connect env <> NoFault \/
   (exists e, on_read env = Fault e true) \/
   (on_read env = NoFault /\ exists df, snd (read query params (store w)) = Returns df) ->
   conns (fst (fetch_data env query params w)) = conns w) /\
  (on_connect env = NoFault ->
   (exists e, on_read env = Fault e false) \/
   (on_read env = NoFault /\ exists e, snd (read query params (store w)) = Raises e) ->
   conns (fst (fetch_data env query params w)) !! next_handle w <> None /\
   conns w !! next_handle w = None).
Proof.
  intros Hf. destruct (Hf (next_handle w) ltac:(lia)) as [Hc _].
  destruct env as [fc fk fe fm fr]; simpl.
  unfold_script. unfold handle in *. split.
  - intros H. split_fault fc; try reflexivity.
    destruct H as [H|[[e H]|[H [df Hdf]]]]; [congruence| |]; subst; map_simpl.
    + destruct e; map_simpl; apply delete_id; exact Hc.
    + destruct (read query params (store w)) as [txn' [df'|e']]; simpl in Hdf;
        [|discriminate]. map_simpl. apply delete_id; exact Hc.
  - intros -> H. map_simpl.
    destruct H as [[e H]|[H [e He]]]; subst; map_simpl.
    + destruct e; map_simpl; (split; [discriminate|exact Hc]).
    + destruct (read query params (store w)) as [txn' [df'|e']]; simpl in He;
        [discriminate|]. map_simpl. split; [discriminate|exact Hc].
Qed.

Lemma fetch_data_open_connection_witness :
  fresh (world_of campus) /\
  conns (fst (fetch_data calm sql_all_students None (world_of campus))) = ∅ /\
  conns (fst (fetch_data read_breaks sql_all_students None (world_of campus))) !! O <> None.
Proof.
  pose proof (fresh_world_of campus) as Hf.
  destruct (fetch_data_open_connection calm sql_all_students None _ Hf) as [Hclosed _].
  destruct (fetch_data_open_connection read_breaks sql_all_students None _ Hf) as [_ Hopen].
  split; [exact Hf|]. split.
  - apply Hclosed. right. right. split; [reflexivity|]. eexists. reflexivity.
  - apply (Hopen eq_refl). left. eexists. reflexivity.
Defined.

(** ** The dashboard *)

Lemma fetch_data_fault_pair env query params w :
  on_connect env <> NoFault \/ on_read env <> NoFault ->
  exists w', fetch_data env query params w = (w', Returns DataFrame_new).
Proof.
  intros H. pose proof (fetch_data_fault env query params w H) as Hr.
  destruct (fetch_data env query params w) as [w' r]. simpl in Hr. subst. eauto.
Qed.

(** When one of the two counts cannot be fetched the script stops at line
    96 or 97 with an [IndexError]: [fetch_data] has turned the failure into
    an empty table and [.iloc[0]] has no row to take. *)
Theorem tab_dash_metrics_count_failure_raises env1 env2 env3 w :
  (on_connect env1 <> NoFault \/ on_read env1 <> NoFault) \/
  (on_connect env1 = NoFault /\ on_read env1 = NoFault /\
   (on_connect env2 <> NoFault \/ on_read env2 <> NoFault)) ->
  snd (tab_dash_metrics env1 env2 env3 w) = Raises IndexError.
Proof.
  intros [H|(Hc & Hr & H)]; unfold tab_dash_metrics, bind.
  - destruct (fetch_data_fault_pair env1 sql_count_students None w H) as [w' ->].
    reflexivity.
  - rewrite (fetch_data_reads env1 sql_count_students None w (store w) _ Hc Hr eq_refl).
    unfold lift at 1.
    cbn [iloc0 rows columns index_of String.eqb Ascii.eqb Bool.eqb nth_error].
    match goal with
    | |- context [fetch_data env2 sql_count_assignments None ?v] =>
      destruct (fetch_data_fault_pair env2 sql_count_assignments None v H) as [w' ->]
    end.
    reflexivity.
Qed.

Lemma tab_dash_metrics_count_failure_raises_witness :
  on_connect unreachable <> NoFault /\
  snd (tab_dash_metrics calm unreachable calm (world_of campus)) = Raises IndexError.
Proof.
  assert (H : on_connect unreachable <> NoFault) by discriminate.
  split; [exact H|].
  apply tab_dash_metrics_count_failure_raises.
  right. split; [reflexivity|]. split; [reflexivity|]. left. exact H.
Defined.

Lemma distinct_nil_inv {A : Type} (same : A -> A -> bool) (l : list A) :
  distinct same l = [] -> l = [].
Proof. destruct l; [reflexivity|discriminate]. Qed.

(** The popularity chart, from the query of lines 128 to 133: it is drawn
    from one row per service name with the number of assignments of that
    name, when the fetch goes through and some assignment is joined to a
    Service; when no assignment is, and just the same when the fetch fails,
    the page says "No service data available." *)
Theorem tab_dash_popularity_chart_or_note env w :
  (used_services (store w) = [] \/ on_connect env <> NoFault \/ on_read env <> NoFault ->
   snd (tab_dash_popularity_chart env w) = Returns (InfoBox "No service data available.")) /\
  (used_services (store w) <> [] -> on_connect env = NoFault -> on_read env = NoFault ->
   snd (tab_dash_popularity_chart env w) =
     Returns (AltairChart
                {| columns := ["service_name"; "usage_count"];
                   rows := map (fun r => [VStr (fst r); VInt (snd r)])
                               (usage_counts (store w)) |}
                "usage_count" "service_name")) /\
  (StudentServices (store w) = [] \/ Services (store w) = [] ->
   used_services (store w) = []).
Proof.
  split; [|split].
  - intros H. unfold tab_dash_popularity_chart, bind.
    destruct (fault_eq_dec (on_connect env) NoFault) as [Hc|Hc];
      [destruct (fault_eq_dec (on_read env) NoFault) as [Hr|Hr]|].
    + destruct H as [Hnone|[?|?]]; try contradiction.
      rewrite (fetch_data_reads env sql_popularity None w (store w) _ Hc Hr eq_refl).
      unfold usage_counts. rewrite Hnone. reflexivity.
    + destruct (fetch_data_fault_pair env sql_popularity None w (or_intror Hr))
        as [w' ->]. reflexivity.
    + destruct (fetch_data_fault_pair env sql_popularity None w (or_introl Hc))
        as [w' ->]. reflexivity.
  - intros Hsome Hc Hr. unfold tab_dash_popularity_chart, bind.
    rewrite (fetch_data_reads env sql_popularity None w (store w) _ Hc Hr eq_refl).
    unfold usage_counts, empty; cbn [columns rows].
    destruct (distinct (sql_eq (schema (store w))) (used_services (store w))) eqn:E.
    + apply distinct_nil_inv in E. contradiction.
    + reflexivity.
  - intros [H|H]; unfold used_services; rewrite H; [reflexivity|].
    induction (StudentServices (store w)); [reflexivity|]. simpl. assumption.
Qed.

Lemma tab_dash_popularity_chart_or_note_witness :
  used_services (store (world_of roster)) = [] /\
  snd (tab_dash_popularity_chart calm (world_of roster)) =
    Returns (InfoBox "No service data available.") /\
  used_services (store (world_of three_costs)) <> [] /\
  snd (tab_dash_popularity_chart calm (world_of three_costs)) =
    Returns (AltairChart {| columns := ["service_name"; "usage_count"];
                            rows := [[VStr "Tutoring"; VInt 3]] |}
                         "usage_count" "service_name").
Proof.
  assert (Hsome : used_services (store (world_of three_costs)) <> []) by discriminate.
  destruct (tab_dash_popularity_chart_or_note calm (world_of roster)) as (Hnote & _ & Hjoin).
  destruct (tab_dash_popularity_chart_or_note calm (world_of three_costs)) as (_ & Hchart & _).
  split; [exact (Hjoin (or_introl eq_refl))|].
  split; [exact (Hnote (or_introl (Hjoin (or_introl eq_refl))))|].
  split; [exact Hsome|]. exact (Hchart Hsome eq_refl eq_refl).
Defined.

Lemma like_all_percent eqc (p s : list ascii) :
  p <> [] -> forallb (fun c => Ascii.eqb c "%") p = true -> like eqc p s = true.
Proof.
  induction p as [|c p IH]; intros Hne Hp; [congruence|].
  simpl in Hp. apply andb_prop in Hp as [Hc Hp]. apply Ascii.eqb_eq in Hc. subst c.
  destruct p as [|c' p'].
  - apply like_percent_only.
  - rewrite like_percent, IH; [reflexivity|discriminate|exact Hp].
Qed.

Lemma filter_all {A : Type} (f : A -> bool) (l : list A) :
  (forall x, f x = true) -> List.filter f l = l.
Proof.
  intros H. induction l as [|x l IH]; simpl; [reflexivity|]. rewrite H, IH. reflexivity.
Qed.

(** The search term is not escaped: a term made only of [%] selects every
    row of the view, as no term at all does. *)
Theorem tab_dash_history_percent_term w term :
  term <> "" -> only_percent term = true ->
  snd (tab_dash_history calm term w) = snd (tab_dash_history calm "" w).
Proof.
  intros Hne Hp. rewrite (tab_dash_history_like _ _ Hne).
  change (tab_dash_history calm "" w) with (fetch_data calm sql_view_history None w).
  rewrite (fetch_data_reads calm sql_view_history None w (store w)
             {| columns := history_columns;
                rows := map history_values (vw_student_services (store w)) |}
             eq_refl eq_refl eq_refl).
  simpl. do 3 f_equal. apply filter_all. intros h.
  unfold sql_like. rewrite !list_ascii_of_string_app. apply like_all_percent.
  - discriminate.
  - simpl. rewrite forallb_app. unfold only_percent in Hp. rewrite Hp. reflexivity.
Qed.

Lemma tab_dash_history_percent_term_witness :
  "%%" <> "" /\ only_percent "%%" = true /\
  snd (tab_dash_history calm "%%" (world_of campus)) =
    Returns {| columns := history_columns;
               rows := [[VStr "S104"; VStr "Ada Lovelace"; VStr "Tutoring";
                         VDate {| year := 2024; month := 5; day := 1 |}; VNum 20]] |}.
Proof.
  assert (Hne : "%%" <> "") by discriminate.
  split; [exact Hne|]. split; [reflexivity|].
  rewrite (tab_dash_history_percent_term (world_of campus) "%%" Hne eq_refl).
  reflexivity.
Defined.

(** ** The students tab *)

Lemma add_student_form_runs env s_id f_name l_name email w :
  s_id <> "" -> f_name <> "" ->
  add_student_form env s_id f_name l_name email true w =
    (run_query env sql_insert_student
               (Some [VStr s_id; VStr f_name; VStr l_name; VStr email]) ;;; st_rerun) w.
Proof.
  intros H1 H2. unfold add_student_form.
  apply truthy_str_true in H1, H2. rewrite H1, H2. reflexivity.
Qed.

Lemma delete_student_button_runs env del_id w :
  del_id <> "" ->
  delete_student_button env del_id true w =
    (run_query env sql_delete_student (Some [VStr del_id]) ;;; st_rerun) w.
Proof.
  intros H. unfold delete_student_button.
  apply truthy_str_true in H. rewrite H. reflexivity.
Qed.

Lemma execute_insert_student_taken st s_id f_name l_name email :
  has_student st s_id = true ->
  execute sql_insert_student (Some [VStr s_id; VStr f_name; VStr l_name; VStr email]) st =
    Raises (DbError "Duplicate entry for key 'PRIMARY'").
Proof.
  intros H.
  change (execute sql_insert_student (Some [VStr s_id; VStr f_name; VStr l_name; VStr email]) st)
    with (exec_command InsertStudent [VStr s_id; VStr f_name; VStr l_name; VStr email] st).
  unfold exec_command. rewrite H. reflexivity.
Qed.

(** Saving a Student whose identifier is taken (under the collation of the
    column) changes nothing in the store; the user is shown the store's
    refusal, and the page reruns all the same. *)
Theorem add_student_form_duplicate env s_id f_name l_name email w :
  s_id <> "" -> f_name <> "" -> no_faults env ->
  has_student (store w) s_id = true ->
  snd (add_student_form env s_id f_name l_name email true w) = Returns tt /\
  store (fst (add_student_form env s_id f_name l_name email true w)) = store w /\
  exists msg,
    log (fst (add_student_form env s_id f_name l_name email true w)) =
      log w ++ [Error ("Error: " +:+ msg); Rerun].
Proof.
  intros H1 H2 Hnf Htaken. rewrite (add_student_form_runs _ _ _ _ _ _ H1 H2).
  unfold bind.
  rewrite (run_query_refused _ _ _ _ _ Hnf
             (execute_insert_student_taken _ _ f_name l_name email Htaken)).
  simpl. repeat split. eexists. rewrite <- app_assoc. reflexivity.
Qed.

Lemma add_student_form_duplicate_witness :
  "S104" <> "" /\ "Ada" <> "" /\ no_faults calm /\
  has_student campus "S104" = true /\
  store (fst (add_student_form calm "S104" "Ada" "Byron" "" true (world_of campus))) = campus.
Proof.
  assert (H1 : "S104" <> "") by discriminate.
  assert (H2 : "Ada" <> "") by discriminate.
  destruct (add_student_form_duplicate calm "S104" "Ada" "Byron" "" (world_of campus)
              H1 H2 calm_no_faults eq_refl) as (_ & Hs & _).
  split; [exact H1|]. split; [exact H2|]. split; [exact calm_no_faults|].
  split; [reflexivity|exact Hs].
Defined.

(** Read your own write: after a Student is saved, the table of current
    students holds the rows it held before and the new one, made of the four
    fields as they were typed, one row more in all (in whatever order the
    store returns them). *)
Theorem add_student_then_list s_id f_name l_name mail w :
  s_id <> "" -> f_name <> "" ->
  has_student (store w) s_id = false ->
  exists table,
    snd (tab_students_table calm
           (fst (add_student_form calm s_id f_name l_name mail true w))) =
      Returns (Table table) /\
    columns table = ["student_id"; "first_name"; "last_name"; "email"] /\
    Permutation (rows table)
      ([VStr s_id; VStr f_name; VStr l_name; VStr mail] ::
       map (fun s => [VStr (student_id s); VStr (first_name s);
                      VStr (last_name s); VStr (email s)])
           (Students (store w))).
Proof.
  intros H1 H2 Hfree. rewrite (add_student_form_runs _ _ _ _ _ _ H1 H2).
  unfold bind.
  rewrite (run_query_commits _ _ _ _ _ _ calm_no_faults
             (execute_insert_student _ _ f_name l_name mail Hfree)).
  cbn [fst]. unfold tab_students_table, bind.
  match goal with
  | |- context [fetch_data calm sql_all_students None ?v] =>
    rewrite (fetch_data_reads calm sql_all_students None v (store v) _
               eq_refl eq_refl eq_refl)
  end.
  cbn [ret snd]. eexists. split; [reflexivity|]. split; [reflexivity|].
  simpl. rewrite map_app. simpl. symmetry. apply Permutation_cons_append.
Qed.

Lemma add_student_then_list_witness :
  "S105" <> "" /\ "Grace" <> "" /\ has_student campus "S105" = false /\
  exists table,
    snd (tab_students_table calm
           (fst (add_student_form calm "S105" "Grace" "Hopper" "grace@example.com" true
                                  (world_of campus)))) = Returns (Table table) /\
    Permutation (rows table)
      [[VStr "S105"; VStr "Grace"; VStr "Hopper"; VStr "grace@example.com"];
       [VStr "S104"; VStr "Ada"; VStr "Lovelace"; VStr "ada@example.com"]].
Proof.
  assert (H1 : "S105" <> "") by discriminate.
  assert (H2 : "Grace" <> "") by discriminate.
  split; [exact H1|]. split; [exact H2|]. split; [reflexivity|].
  destruct (add_student_then_list "S105" "Grace" "Hopper" "grace@example.com"
              (world_of campus) H1 H2 eq_refl) as (table & Ht & _ & Hp).
  exists table. split; [exact Ht|exact Hp].
Defined.

Lemma sql_eq_trans sc a b c :
  sql_eq sc a b = true -> sql_eq sc b c = true -> sql_eq sc a c = true.
Proof.
  unfold sql_eq. intros H1 H2.
  apply String.eqb_eq in H1, H2. apply String.eqb_eq. congruence.
Qed.

(** Where every assignment names an existing Student, an identifier no
    Student has is named by no assignment. *)
Lemma integrity_free_id st sid :
  integrity st -> has_student st sid = false -> referenced st sid = false.
Proof.
  intros Hint Hfree. destruct (referenced st sid) eqn:E; [|reflexivity].
  unfold referenced in E. apply existsb_exists in E as (a & Ha & Href).
  destruct (Hint a Ha) as [Hs _].
  unfold has_student in Hs. apply existsb_exists in Hs as (s & Hin & Hs).
  rewrite <- Hfree. symmetry. apply existsb_exists. exists s. split; [exact Hin|].
  unfold is_student, refers_to in *. eapply sql_eq_trans; eassumption.
Qed.

Lemma delete_added_student st s_id f_name l_name mail :
  has_student st s_id = false -> referenced st s_id = false ->
  delete_student
    (with_students st
       (Students st ++
          [ {| student_id := s_id; first_name := f_name; last_name := l_name;
               email := mail |} ])
       (StudentServices st)) s_id = st.
Proof.
  intros Hfree Href. unfold delete_student, with_students, has_student, is_student; simpl.
  rewrite List.filter_app, existsb_app. simpl. rewrite sql_eq_refl. simpl.
  rewrite orb_true_r, app_nil_r.
  rewrite (filter_negb_none (fun s => sql_eq (schema st) (student_id s) s_id))
    by exact Hfree.
  rewrite (filter_negb_none (refers_to _ s_id)) by exact Href.
  destruct st; reflexivity.
Qed.

(** Saving a Student and then deleting the same identifier brings the store
    back to what it was, row for row: a round trip. *)
Theorem add_then_delete_student s_id f_name l_name mail w :
  s_id <> "" -> f_name <> "" ->
  integrity (store w) ->
  has_student (store w) s_id = false ->
  store (fst (delete_student_button calm s_id true
                (fst (add_student_form calm s_id f_name l_name mail true w)))) = store w.
Proof.
  intros H1 H2 Hint Hfree.
  pose proof (integrity_free_id _ _ Hint Hfree) as Href.
  rewrite (add_student_form_runs _ _ _ _ _ _ H1 H2). unfold bind.
  rewrite (run_query_commits _ _ _ _ _ _ calm_no_faults
             (execute_insert_student _ _ f_name l_name mail Hfree)).
  cbn [st_rerun act fst].
  rewrite (delete_student_button_runs _ _ _ H1). unfold bind.
  erewrite run_query_commits;
    [ | exact calm_no_faults
      | apply execute_delete_permitted; right; exact Href ].
  cbn [st_rerun act fst emit store].
  apply delete_added_student; assumption.
Qed.

Lemma integrity_campus : integrity campus.
Proof.
  intros a [<-|[]]. split; reflexivity.
Qed.

Lemma add_then_delete_student_witness :
  "S105" <> "" /\ "Grace" <> "" /\ integrity campus /\ has_student campus "S105" = false /\
  store (fst (delete_student_button calm "S105" true
                (fst (add_student_form calm "S105" "Grace" "Hopper" "" true
                                       (world_of campus))))) = campus.
Proof.
  assert (H1 : "S105" <> "") by discriminate.
  assert (H2 : "Grace" <> "") by discriminate.
  split; [exact H1|]. split; [exact H2|]. split; [exact integrity_campus|].
  split; [reflexivity|].
  exact (add_then_delete_student "S105" "Grace" "Hopper" "" (world_of campus)
           H1 H2 integrity_campus eq_refl).
Defined.

(** Where the schema restricts deletes, "Delete" on a Student who has
    assignments removes nothing, neither the Student nor the assignments;
    the store's refusal is shown and the page reruns. *)
Theorem delete_student_button_refused env del_id w :
  del_id <> "" -> no_faults env ->
  on_delete_student (schema (store w)) = Restrict ->
  has_student (store w) del_id = true ->
  referenced (store w) del_id = true ->
  snd (delete_student_button env del_id true w) = Returns tt /\
  store (fst (delete_student_button env del_id true w)) = store w /\
  exists msg,
    log (fst (delete_student_button env del_id true w)) =
      log w ++ [Error ("Error: " +:+ msg); Rerun].
Proof.
  intros Hne Hnf Hr Hs Href. rewrite (delete_student_button_runs _ _ _ Hne).
  unfold bind.
  rewrite (run_query_refused _ _ _ _ _ Hnf (execute_delete_restricted _ _ Hr Hs Href)).
  simpl. repeat split. eexists. rewrite <- app_assoc. reflexivity.
Qed.

Lemma delete_student_button_refused_witness :
  "S104" <> "" /\ no_faults calm /\
  on_delete_student (schema campus) = Restrict /\
  has_student campus "S104" = true /\ referenced campus "S104" = true /\
  store (fst (delete_student_button calm "S104" true (world_of campus))) = campus.
Proof.
  assert (H1 : "S104" <> "") by discriminate.
  destruct (delete_student_button_refused calm "S104" (world_of campus)
              H1 calm_no_faults eq_refl eq_refl eq_refl) as (_ & Hs & _).
  split; [exact H1|]. split; [exact calm_no_faults|].
  repeat (split; [reflexivity|]). exact Hs.
Defined.

(** ** The services tab *)

(** "Save Service" has no guard: with the server reachable it commits one
    Service for every name, the empty one included, under the next
    identifier.  The toast of [run_query] then raises, so the handler ends
    with that exception, shows no toast and does not get to [st.rerun()].
    Where the identifiers so far are below the counter, the new one differs
    from all of them and the counter is ahead again. *)
Theorem add_service_form_always_inserts env s_name cost w :
  no_faults env ->
  snd (add_service_form env s_name cost true w) = Raises not_an_emoji /\
  Services (store (fst (add_service_form env s_name cost true w))) =
    Services (store w) ++
      [ {| service_id := next_service_id (store w); service_name := s_name;
           base_cost := cost |} ] /\
  log (fst (add_service_form env s_name cost true w)) =
    log w ++ [ Executed sql_insert_service (Some [VStr s_name; VNum cost]) 1; Committed ] /\
  (ids_below (store w) ->
   (forall sv, In sv (Services (store w)) -> service_id sv <> next_service_id (store w)) /\
   ids_below (store (fst (add_service_form env s_name cost true w)))).
Proof.
  intros Hnf. unfold add_service_form, bind.
  rewrite (run_query_commits _ _ _ _ _ _ Hnf (execute_insert_service _ _ _)).
  simpl. repeat split; try reflexivity.
  - intros sv Hin. specialize (H sv Hin). lia.
  - intros sv Hin. simpl in *. apply in_app_or in Hin as [Hin|[<-|[]]].
    + specialize (H sv Hin). lia.
    + simpl. lia.
Qed.

Lemma add_service_form_always_inserts_witness :
  no_faults calm /\ ids_below campus /\
  snd (add_service_form calm "" 0 true (world_of campus)) = Raises not_an_emoji /\
  Services (store (fst (add_service_form calm "" 0 true (world_of campus)))) =
    [ {| service_id := 1; service_name := "Tutoring"; base_cost := 25 |};
      {| service_id := 2; service_name := ""; base_cost := 0 |} ].
Proof.
  assert (Hb : ids_below campus).
  { intros sv [<-|[]]. reflexivity. }
  destruct (add_service_form_always_inserts calm "" 0 (world_of campus) calm_no_faults)
    as (Hr & Hs & _ & Hids).
  destruct (Hids Hb) as [_ _].
  split; [exact calm_no_faults|]. split; [exact Hb|]. split; [exact Hr|exact Hs].
Defined.

(** ** The assignment tab *)

Lemma fetch_data_shape env query params w :
  exists w' df seen,
    fetch_data env query params w = (w', Returns df) /\
    store w' = store w /\ log w' = log w ++ seen.
Proof.
  destruct env as [fc fk fe fm fr].
  unfold_script.
  split_fault fc; try (do 3 eexists; repeat split; symmetry; apply app_nil_r).
  split_fault fr; try (do 3 eexists; repeat split; symmetry; apply app_nil_r).
  destruct (read query params (store w)) as [txn' [df|e]]; map_simpl.
  - do 3 eexists. repeat split.
  - do 3 eexists; repeat split; symmetry; apply app_nil_r.
Qed.

(** Without "Confirm Service Record" the assignment tab writes nothing,
    whatever the tables hold, whatever was selected or typed and whatever
    fails. *)
Theorem tab_assign_writes_only_on_confirm str_float env1 env2 env
    label_student label_service d typed w :
  store (fst (tab_assign str_float env1 env2 env label_student label_service d
                         typed false w)) = store w.
Proof.
  unfold tab_assign, bind.
  destruct (fetch_data_shape env1 sql_student_choices None w)
    as (w1 & students & seen1 & -> & Hs1 & _).
  destruct (fetch_data_shape env2 sql_service_choices None w1)
    as (w2 & services & seen2 & -> & Hs2 & _).
  rewrite <- Hs1, <- Hs2.
  destruct (negb (empty students) && negb (empty services)); [|reflexivity].
  unfold lift.
  destruct (student_options str_float students); [|reflexivity].
  destruct (service_options str_float services) as [vopts|]; [|reflexivity].
  destruct (dict_get vopts label_service) as [choice|]; [|reflexivity].
  destruct (py_float (snd choice)); reflexivity.
Qed.

Lemma fetch_data_empty_table env query params w :
  on_connect env <> NoFault \/ on_read env <> NoFault \/
  (exists q cols, bind_params query params = Returns [] /\ parse query = Some (Qry q) /\
                  eval_query q [] (store w) = Returns {| columns := cols; rows := [] |}) ->
  exists w' df seen,
    fetch_data env query params w = (w', Returns df) /\
    store w' = store w /\ log w' = log w ++ seen /\ empty df = true.
Proof.
  intros H.
  destruct (fetch_data_shape env query params w) as (w' & df & seen & Hfd & Hs & Hl).
  exists w', df, seen. repeat split; try assumption.
  destruct (fault_eq_dec (on_connect env) NoFault) as [Hc|Hc];
    [destruct (fault_eq_dec (on_read env) NoFault) as [Hr|Hr]|].
  - destruct H as [?|[?|(q & cols & Hb & Hp & He)]]; try contradiction.
    rewrite (fetch_data_reads _ _ _ _ _ _ Hc Hr (read_query _ _ _ _ _ _ Hb Hp He)) in Hfd.
    injection Hfd as _ <-. unfold empty; simpl. destruct cols; reflexivity.
  - pose proof (fetch_data_fault env query params w (or_intror Hr)) as Hf.
    rewrite Hfd in Hf. injection Hf as ->. reflexivity.
  - pose proof (fetch_data_fault env query params w (or_introl Hc)) as Hf.
    rewrite Hfd in Hf. injection Hf as ->. reflexivity.
Qed.

(** With no Student or no Service to choose from, and just the same when
    one of the two fetches fails, the assignment tab shows "Add students and
    services first." and writes nothing, confirmed or not. *)
Theorem tab_assign_nothing_to_choose str_float env1 env2 env
    label_student label_service d typed confirm w :
  (on_connect env1 <> NoFault \/ on_read env1 <> NoFault \/ Students (store w) = []) \/
  (on_connect env2 <> NoFault \/ on_read env2 <> NoFault \/ Services (store w) = []) ->
  snd (tab_assign str_float env1 env2 env label_student label_service d typed confirm w)
    = Returns tt /\
  store (fst (tab_assign str_float env1 env2 env label_student label_service d
                         typed confirm w)) = store w /\
  exists seen,
    log (fst (tab_assign str_float env1 env2 env label_student label_service d
                         typed confirm w)) =
      log w ++ seen ++ [Warning "Add students and services first."].
Proof.
  intros H. unfold tab_assign, bind.
  destruct H as [H|H].
  - destruct (fetch_data_empty_table env1 sql_student_choices None w)
      as (w1 & students & seen1 & -> & Hs1 & Hl1 & He1).
    { destruct H as [?|[?|Hnone]]; auto. right. right.
      exists StudentChoices, ["student_id"; "first_name"; "last_name"].
      repeat split. simpl. rewrite Hnone. reflexivity. }
    destruct (fetch_data_shape env2 sql_service_choices None w1)
      as (w2 & services & seen2 & -> & Hs2 & Hl2).
    rewrite He1. simpl. rewrite Hs2, Hs1, Hl2, Hl1. repeat split.
    exists (seen1 ++ seen2). rewrite <- !app_assoc. reflexivity.
  - destruct (fetch_data_shape env1 sql_student_choices None w)
      as (w1 & students & seen1 & -> & Hs1 & Hl1).
    destruct (fetch_data_empty_table env2 sql_service_choices None w1)
      as (w2 & services & seen2 & -> & Hs2 & Hl2 & He2).
    { destruct H as [?|[?|Hnone]]; auto. right. right.
      exists ServiceChoices, ["service_id"; "service_name"; "base_cost"].
      repeat split. simpl. rewrite Hs1, Hnone. reflexivity. }
    rewrite He2, andb_false_r. simpl. rewrite Hs2, Hs1, Hl2, Hl1. repeat split.
    exists (seen1 ++ seen2). rewrite <- !app_assoc. reflexivity.
Qed.

Lemma tab_assign_nothing_to_choose_witness :
  Services (store (world_of roster)) = [] /\
  snd (tab_assign show_cost calm calm calm "Ada Lovelace" "Tutoring ($25.0)" (on_day 2)
                  (Some 20%Q) true (world_of roster)) = Returns tt /\
  store (fst (tab_assign show_cost calm calm calm "Ada Lovelace" "Tutoring ($25.0)"
                         (on_day 2) (Some 20%Q) true (world_of roster))) = roster.
Proof.
  split; [reflexivity|].
  destruct (tab_assign_nothing_to_choose show_cost calm calm calm "Ada Lovelace"
              "Tutoring ($25.0)" (on_day 2) (Some 20%Q) true (world_of roster)
              (or_intror (or_intror (or_intror eq_refl)))) as (Hr & Hs & _).
  split; [exact Hr|exact Hs].
Defined.

(** When the cost field is left alone, the assignment is recorded at the
    base cost of the Service that was selected: for a Student and a Service
    that exist and whose labels are the ones picked, "Confirm Service Record"
    adds one row to [StudentServices] with that cost. *)
Theorem tab_assign_default_cost str_float w label_student label_service d
    students services sopts vopts sid svc base :
  eval_query StudentChoices [] (store w) = Returns students ->
  eval_query ServiceChoices [] (store w) = Returns services ->
  student_options str_float students = Returns sopts ->
  sopts !! label_student = Some (VStr sid) ->
  service_options str_float services = Returns vopts ->
  vopts !! label_service = Some (VInt svc, VNum base) ->
  has_student (store w) sid = true ->
  has_service (store w) svc = true ->
  StudentServices
    (store (fst (tab_assign str_float calm calm calm label_student label_service d
                            None true w))) =
    StudentServices (store w) ++
      [ {| ss_id := next_assignment_id (store w); ss_student_id := sid;
           ss_service_id := svc; service_date := d; service_cost := base |} ].
Proof.
  intros Hst Hsv Hso Hs Hvo Hv Hhas Hsvc.
  assert (Hne1 : empty students = false).
  { injection Hst as <-. unfold empty; simpl.
    pose proof (has_student_nonempty _ _ Hhas) as Hsome.
    destruct (Students (store w)); [contradiction|reflexivity]. }
  assert (Hne2 : empty services = false).
  { injection Hsv as <-. unfold empty; simpl. unfold has_service in Hsvc.
    destruct (Services (store w)); [discriminate|reflexivity]. }
  rewrite (tab_assign_confirm str_float w label_student label_service d None
             students services sopts vopts (VStr sid) (VInt svc) base
             Hst Hsv Hne1 Hne2 Hso Hs Hvo Hv).
  cbn [number_input].
  match goal with
  | |- context [run_query calm sql_insert_assignment ?ps ?v] =>
    rewrite (run_query_commits calm sql_insert_assignment ps v _ _ calm_no_faults
               (execute_insert_assignment (store w) sid svc d base Hhas Hsvc))
  end.
  reflexivity.
Qed.

Lemma tab_assign_default_cost_witness :
  has_student campus "S104" = true /\ has_service campus 1 = true /\
  map service_cost
    (StudentServices
       (store (fst (tab_assign show_cost calm calm calm "Ada Lovelace" "Tutoring ($25.0)"
                               (on_day 2) None true (world_of campus))))) = [20; 25]%Q.
Proof.
  split; [reflexivity|]. split; [reflexivity|].
  rewrite (tab_assign_default_cost show_cost (world_of campus)
             "Ada Lovelace" "Tutoring ($25.0)" (on_day 2)
             {| columns := ["student_id"; "first_name"; "last_name"];
                rows := [[VStr "S104"; VStr "Ada"; VStr "Lovelace"]] |}
             {| columns := ["service_id"; "service_name"; "base_cost"];
                rows := [[VInt 1; VStr "Tutoring"; VNum 25]] |}
             (<["Ada Lovelace" := VStr "S104"]> ∅)
             (<["Tutoring ($25.0)" := (VInt 1, VNum 25)]> ∅)
             "S104" 1%Z 25%Q
             eq_refl eq_refl eq_refl (lookup_insert_eq _ _ _)
             eq_refl (lookup_insert_eq _ _ _) eq_refl eq_refl).
  reflexivity.
Defined.

(** *** Students with the same name *)

Lemma student_options_from_fold str_float (l : list Student) (acc : gmap string value) :
  student_options_from str_float ["student_id"; "first_name"; "last_name"]
                       (map student_choice_row l) acc =
  Returns (fold_left (fun m s => <[student_label s := VStr (student_id s)]> m) l acc).
Proof.
  revert acc. induction l as [|s l IH]; intros acc; [reflexivity|].
  simpl. rewrite IH. reflexivity.
Qed.

Lemma fold_left_insert_other (l : list Student) (acc : gmap string value) (key : string) :
  (forall s, In s l -> student_label s <> key) ->
  fold_left (fun m s => <[student_label s := VStr (student_id s)]> m) l acc !! key
    = acc !! key.
Proof.
  revert acc. induction l as [|s l IH]; intros acc H; [reflexivity|].
  simpl. rewrite IH by (intros s' Hs'; apply H; right; exact Hs').
  apply lookup_insert_ne. apply H. left. reflexivity.
Qed.

(** Two Students with the same first and last name share one entry of the
    select box, and it stands for the later one: the label of a Student
    resolves to the identifier of the last Student of the table that carries
    that label. *)
Theorem student_options_last_namesake str_float st pre s post students :
  Students st = pre ++ s :: post ->
  (forall s', In s' post -> student_label s' <> student_label s) ->
  eval_query StudentChoices [] st = Returns students ->
  exists sopts,
    student_options str_float students = Returns sopts /\
    sopts !! student_label s = Some (VStr (student_id s)).
Proof.
  intros Hl Hpost Hst. injection Hst as <-.
  unfold student_options; cbn [columns rows].
  change (map (fun s0 => [VStr (student_id s0); VStr (first_name s0); VStr (last_name s0)])
              (Students st))
    with (map student_choice_row (Students st)).
  rewrite student_options_from_fold. eexists. split; [reflexivity|].
  rewrite Hl, fold_left_app. simpl.
  rewrite (fold_left_insert_other _ _ _ Hpost). apply lookup_insert_eq.
Qed.

Lemma student_options_last_namesake_witness :
  Students namesakes = [ada] ++ ada_again :: [] /\
  exists sopts,
    student_options show_cost
      {| columns := ["student_id"; "first_name"; "last_name"];
         rows := [[VStr "S104"; VStr "Ada"; VStr "Lovelace"];
                  [VStr "S200"; VStr "Ada"; VStr "Lovelace"]] |} = Returns sopts /\
    sopts !! "Ada Lovelace" = Some (VStr "S200").
Proof.
  split; [reflexivity|].
  apply (student_options_last_namesake show_cost namesakes [ada] ada_again []).
  - reflexivity.
  - intros s' [].
  - reflexivity.
Defined.

(** ** What no call can break *)

Lemma unique_ids_snoc sc (l : list Student) (s : Student) :
  unique_ids sc l ->
  existsb (fun s' => sql_eq sc (student_id s') (student_id s)) l = false ->
  unique_ids sc (l ++ [s]).
Proof.
  induction l as [|x l IH]; simpl; intros Hu Hfree; [auto|].
  destruct Hu as [Hx Hu]. apply orb_false_iff in Hfree as [Hxs Hfree].
  split; [|exact (IH Hu Hfree)].
  rewrite existsb_app, Hx. simpl. rewrite sql_eq_sym, Hxs. reflexivity.
Qed.

Lemma existsb_filter_false {A : Type} (f g : A -> bool) (l : list A) :
  existsb f l = false -> existsb f (List.filter g l) = false.
Proof.
  induction l as [|x l IH]; simpl; [auto|].
  intros H. apply orb_false_iff in H as [Hx H].
  destruct (g x); simpl; [rewrite Hx|]; auto.
Qed.

Lemma unique_ids_filter sc (g : Student -> bool) (l : list Student) :
  unique_ids sc l -> unique_ids sc (List.filter g l).
Proof.
  induction l as [|x l IH]; simpl; [auto|]. intros [Hx Hu].
  destruct (g x); simpl; [split|]; auto using existsb_filter_false.
Qed.

Lemma has_student_survives st sid other :
  has_student st other = true ->
  sql_eq (schema st) other sid = false ->
  has_student (delete_student st sid) other = true.
Proof.
  unfold has_student, delete_student, with_students, is_student; simpl.
  intros H Hne. apply existsb_exists in H as (s & Hin & Hs).
  apply existsb_exists. exists s. split; [|exact Hs].
  apply List.filter_In. split; [exact Hin|].
  apply negb_true_iff. destruct (sql_eq (schema st) (student_id s) sid) eqn:E; [|reflexivity].
  rewrite <- Hne. symmetry. apply (sql_eq_trans _ _ (student_id s)); [|exact E].
  rewrite sql_eq_sym. exact Hs.
Qed.

Lemma exec_command_keeps_integrity c args st st' n :
  exec_command c args st = Returns (st', n) ->
  integrity st /\ unique_ids (schema st) (Students st) ->
  integrity st' /\ unique_ids (schema st') (Students st').
Proof.
  intros Hex [Hint Hu].
  destruct c; simpl in Hex; repeat case_match; simplify_eq.
  - (* a new Student *)
    split.
    + intros a Ha. destruct (Hint a Ha) as [Hs Hv]. split; [|exact Hv].
      unfold has_student, is_student in *; simpl in *.
      rewrite existsb_app. apply orb_true_iff. left. exact Hs.
    + simpl. apply unique_ids_snoc; assumption.
  - (* a delete that the store lets through under RESTRICT *)
    match goal with H : _ && _ = false |- _ => apply andb_false_iff in H as [Hno|Hno] end.
    + rewrite (delete_student_absent _ _ Hno). auto.
    + split; [|apply unique_ids_filter; exact Hu].
      intros a Ha. unfold delete_student, with_students in Ha; simpl in Ha.
      assert (Ha' : In a (StudentServices st)).
      { destruct (has_student st s); [|exact Ha]. apply List.filter_In in Ha. tauto. }
      destruct (Hint a Ha') as [Hs Hv]. split; [|exact Hv].
      apply has_student_survives; [exact Hs|].
      exact (existsb_false_In _ _ _ Hno Ha').
  - (* a delete under CASCADE *)
    destruct (has_student st s) eqn:Hhas;
      [|rewrite (delete_student_absent _ _ Hhas); auto].
    split; [|apply unique_ids_filter; exact Hu].
    intros a Ha. unfold delete_student, with_students in Ha; simpl in Ha.
    rewrite Hhas in Ha. apply List.filter_In in Ha as [Ha' Hnot].
    destruct (Hint a Ha') as [Hs Hv]. split; [|exact Hv].
    apply has_student_survives; [exact Hs|].
    apply negb_true_iff in Hnot. exact Hnot.
  - (* a new Service *)
    split; [|exact Hu].
    intros a Ha. destruct (Hint a Ha) as [Hs Hv]. split; [exact Hs|].
    unfold has_service in *; simpl in *.
    rewrite existsb_app. apply orb_true_iff. left. exact Hv.
  - (* a new assignment *)
    split; [|exact Hu].
    match goal with H : _ && _ = true |- _ => apply andb_true_iff in H as [Hs1 Hv1] end.
    intros a Ha. simpl in Ha. apply in_app_or in Ha as [Ha|[<-|[]]].
    + exact (Hint a Ha).
    + split; assumption.
Qed.

Lemma execute_keeps_integrity sql params st st' n :
  execute sql params st = Returns (st', n) ->
  integrity st /\ unique_ids (schema st) (Students st) ->
  integrity st' /\ unique_ids (schema st') (Students st').
Proof.
  unfold execute. intros Hex Hinv.
  destruct (bind_params sql params) as [args|]; [|discriminate].
  destruct (parse sql) as [[c|q]|]; [| |discriminate].
  - exact (exec_command_keeps_integrity _ _ _ _ _ Hex Hinv).
  - destruct (eval_query q args st); [|discriminate]. injection Hex as <- _. exact Hinv.
Qed.

(** Whatever text and parameters [run_query] is given and whatever fails on
    the way, a store in which every assignment names an existing Student and
    an existing Service, and no two Students share an identifier, is still
    such a store afterwards. *)
Theorem run_query_keeps_integrity env query params w :
  integrity (store w) /\ unique_ids (schema (store w)) (Students (store w)) ->
  integrity (store (fst (run_query env query params w))) /\
  unique_ids (schema (store (fst (run_query env query params w))))
             (Students (store (fst (run_query env query params w)))).
Proof.
  intros Hinv.
  destruct (run_query_outcomes env query params w)
    as [st' n Hex Hst _ _ | err seen Hst _ _ _ | e seen Hst _ _ _ _]; rewrite Hst.
  - exact (execute_keeps_integrity _ _ _ _ _ Hex Hinv).
  - exact Hinv.
  - exact Hinv.
Qed.

Lemma run_query_keeps_integrity_witness :
  (integrity campus /\ unique_ids (schema campus) (Students campus)) /\
  integrity (store (fst (run_query calm sql_insert_assignment
                                   (Some [VStr "S104"; VInt 1; VDate (on_day 9); VNum 5])
                                   (world_of campus)))).
Proof.
  assert (H : integrity campus /\ unique_ids (schema campus) (Students campus)).
  { split; [exact integrity_campus|]. simpl. auto. }
  split; [exact H|].
  exact (proj1 (run_query_keeps_integrity calm sql_insert_assignment
                  (Some [VStr "S104"; VInt 1; VDate (on_day 9); VNum 5])
                  (world_of campus) H)).
Defined.
